(** * AIR canvas: gesture dispatch, palette selection and stroke canvas

    A shallow embedding of the gesture core of the repository:
    - [src/src/hand_detector.py]  (finger-state classifier),
    - [src/src/color_palette.py]  (palette header and selection),
    - [src/main.py]               (desktop shell, per-frame body of the loop),
    - [src/app.py]                (web shell, [AirCanvasProcessor.recv]).

    Python integers are unbounded, hence [Z]; list indexing that can raise
    [IndexError] is written in a small error monad; [None] is [option]. *)

From Stdlib Require Import ZArith Lia Ascii.
From stdpp Require Import base list strings.

Local Open Scope Z_scope.

(** ** Python results: a value or a raised exception *)

(** [IndexError] comes from indexing a list; [ValueError] and
    [OverflowError] from [int()] of a float that is NaN or infinite. *)
Inductive exn : Type := IndexError | ValueError | OverflowError.

Inductive result (A : Type) : Type :=
| Ok (a : A)
| Raise (e : exn).

Arguments Ok {A} a.
Arguments Raise {A} e.

#[global] Instance result_ret : MRet result := fun A a => Ok a.

#[global] Instance result_bind : MBind result := fun A B k m =>
  match m with
  | Ok a => k a
  | Raise e => Raise e
  end.

(** [l[i]] for a non-negative index [i]. *)
Definition getitem {A : Type} (l : list A) (i : nat) : result A :=
  match l !! i with
  | Some a => Ok a
  | None => Raise IndexError
  end.

(** [l[i]] for any integer index: a negative [i] counts from the end. *)
Definition getitem_int {A : Type} (l : list A) (i : Z) : result A :=
  if 0 <=? i then getitem l (Z.to_nat i)
  else if 0 <=? Z.of_nat (length l) + i
       then getitem l (Z.to_nat (Z.of_nat (length l) + i))
       else Raise IndexError.

(** A dictionary literal with string keys, and the lookup behind
    [key in d] and [d[key]]. *)
Fixpoint dict_get {V : Type} (d : list (string * V)) (key : string) : option V :=
  match d with
  | [] => None
  | (k, v) :: rest => if String.eqb k key then Some v else dict_get rest key
  end.

(** [ord(c)] of a one-character string. *)
Definition ord (c : Ascii.ascii) : Z := Z.of_N (Ascii.N_of_ascii c).

(** A point [(x, y)] and a colour [(b, g, r)], both Python tuples of ints. *)
Definition Point : Type := (Z * Z)%type.
Definition BGR : Type := (Z * Z * Z)%type.

(** ** src/src/hand_detector.py *)

Module HandDetector.

(** One entry [[id, cx, cy]] of [landmark_list]. *)
Record Landmark : Type := { id : Z; cx : Z; cy : Z }.

Definition THUMB_TIP : nat := 4.
Definition INDEX_TIP : nat := 8.
Definition MIDDLE_TIP : nat := 12.
Definition RING_TIP : nat := 16.
Definition PINKY_TIP : nat := 20.

Definition TIP_IDS : list nat := [4; 8; 12; 16; 20]%nat.

(** The [for tip_id in [...]] loop of [fingers_up]; [fingers] is the list
    built so far by [append]. *)
Fixpoint fingers_up_loop (landmark_list : list Landmark) (tip_ids : list nat)
    (fingers : list Z) : result (list Z) :=
  match tip_ids with
  | [] => Ok fingers
  | tip_id :: rest =>
      tip ← getitem landmark_list tip_id;
      pip ← getitem landmark_list (tip_id - 2)%nat;
      fingers_up_loop landmark_list rest
        (fingers ++ [if cy tip <? cy pip then 1 else 0])
  end.

Definition fingers_up (landmark_list : list Landmark) : result (list Z) :=
  if (length landmark_list =? 0)%nat then Ok [0; 0; 0; 0; 0]
  else
    tip ← getitem landmark_list THUMB_TIP;
    joint ← getitem landmark_list (THUMB_TIP - 1)%nat;
    fingers_up_loop landmark_list [INDEX_TIP; MIDDLE_TIP; RING_TIP; PINKY_TIP]
      ([] ++ [if cx tip <? cx joint then 1 else 0]).

Definition get_finger_tip (landmark_list : list Landmark) (finger_id : Z)
    : result (option Point) :=
  if (length landmark_list =? 0)%nat then Ok None
  else
    tip_id ← getitem_int TIP_IDS finger_id;
    tip ← getitem landmark_list tip_id;
    Ok (Some (cx tip, cy tip)).

Definition sum (l : list Z) : Z := foldl Z.add 0 l.

Definition count_fingers (landmark_list : list Landmark) : result Z :=
  fingers ← fingers_up landmark_list;
  Ok (sum fingers).

(** [find_distance]: the returned distance and point list (the drawing on
    [frame] is left out).  [math.hypot] gives a float, kept abstract, as is
    the integer [0] of the early return. *)
Section Distance.

Variable number : Type.
Variable zero : number.
Variable hypot : Z -> Z -> number.

Definition find_distance (landmark_list : list Landmark) (p1 p2 : Z)
    : result (number * list Z) :=
  if Z.of_nat (length landmark_list) <? Z.max p1 p2 + 1 then Ok (zero, [])
  else
    a ← getitem_int landmark_list p1;
    b ← getitem_int landmark_list p2;
    let x1 := cx a in
    let y1 := cy a in
    let x2 := cx b in
    let y2 := cy b in
    let cx := (x1 + x2) / 2 in
    let cy := (y1 + y2) / 2 in
    let distance := hypot (x2 - x1) (y2 - y1) in
    Ok (distance, [x1; y1; x2; y2; cx; cy]).

End Distance.

(** [find_position]: the list built from the stored detection results.
    [results] is [self.results] ([None] before the first detection);
    its [multi_hand_landmarks] is [None] or a list of hands, each a list of
    landmarks with float coordinates [x], [y].  The floats are kept
    abstract; [to_pixel c dim] is [int(c * dim)], which raises on a NaN or
    an infinite product; [h], [w] are [frame.shape]. *)
Section Position.

Variable coord : Type.
Variable to_pixel : coord -> Z -> result Z.

Record NormalizedLandmark : Type := { x : coord; y : coord }.

(** The [for id, landmark in enumerate(hand.landmark)] loop, from index
    [id] on. *)
Fixpoint find_position_loop (landmarks : list NormalizedLandmark) (id : nat)
    (h w : Z) (landmark_list : list Landmark) : result (list Landmark) :=
  match landmarks with
  | [] => Ok landmark_list
  | landmark :: rest =>
      cx ← to_pixel (x landmark) w;
      cy ← to_pixel (y landmark) h;
      find_position_loop rest (S id) h w
        (landmark_list ++ [Build_Landmark (Z.of_nat id) cx cy])
  end.

Definition find_position
    (results : option (option (list (list NormalizedLandmark))))
    (h w : Z) (hand_no : Z) : result (list Landmark) :=
  match results with
  | Some (Some (first :: others)) =>
      let multi_hand_landmarks := first :: others in
      if hand_no <? Z.of_nat (length multi_hand_landmarks) then
        hand ← getitem_int multi_hand_landmarks hand_no;
        find_position_loop hand 0 h w []
      else Ok []
  | _ => Ok []
  end.

End Position.

Arguments x {coord} _.
Arguments y {coord} _.
Arguments find_position_loop {coord} to_pixel landmarks id h w landmark_list.
Arguments find_position {coord} to_pixel results h w hand_no.
Arguments find_distance {number} zero hypot landmark_list p1 p2.

End HandDetector.

(** ** src/src/color_palette.py *)

Module ColorPalette.

(** One dictionary of [color_boxes]. *)
Record Box : Type := {
  x1 : Z; x2 : Z; y1 : Z; y2 : Z;
  color : BGR;
  name : string
}.

Record palette : Type := {
  frame_width : Z;
  header_height : Z;
  colors : list (string * BGR);
  num_colors : Z;
  box_width : Z;
  color_boxes : list Box
}.

(** [__init__]; [//] is floor division, as [Z.div]. *)
Definition init (frame_width header_height : Z) : palette :=
  let colors : list (string * BGR) :=
    [ ("Purple"%string, (255, 0, 255));
      ("Blue"%string, (255, 0, 0));
      ("Green"%string, (0, 255, 0));
      ("Red"%string, (0, 0, 255));
      ("Yellow"%string, (0, 255, 255));
      ("Eraser"%string, (0, 0, 0)) ] in
  let num_colors := Z.of_nat (length colors) in
  let box_width := frame_width / num_colors in
  {| frame_width := frame_width;
     header_height := header_height;
     colors := colors;
     num_colors := num_colors;
     box_width := box_width;
     color_boxes :=
       imap (fun i color =>
               {| x1 := Z.of_nat i * box_width;
                  x2 := (Z.of_nat i + 1) * box_width;
                  y1 := 0;
                  y2 := header_height;
                  color := snd color;
                  name := fst color |}) colors |}.

(** The test of one box: [x1 <= x <= x2 and y1 <= y <= y2]. *)
Definition in_box (box : Box) (x y : Z) : bool :=
  (x1 box <=? x) && (x <=? x2 box) && (y1 box <=? y) && (y <=? y2 box).

(** The [for box in self.color_boxes] loop with its early [return]. *)
Fixpoint first_hit (boxes : list Box) (x y : Z) : option BGR :=
  match boxes with
  | [] => None
  | box :: rest => if in_box box x y then Some (color box) else first_hit rest x y
  end.

Definition check_selection (self : palette) (x y : Z) : option BGR :=
  if header_height self <? y then None
  else first_hit (color_boxes self) x y.

Definition is_in_header (self : palette) (y : Z) : bool := y <? header_height self.

End ColorPalette.

(** ** Images

    A colour image is a list of rows of [(b, g, r)] pixels, a grey image a
    list of rows of intensities; every channel is a [uint8], kept as a [Z]
    in [0, 255]. *)

Abbreviation Image := (list (list BGR)).
Abbreviation GrayImage := (list (list Z)).

(** The pixel in row [r], column [c]. *)
Definition pixel {A : Type} (img : list (list A)) (r c : nat) : option A :=
  img !! r ≫= (.!! c).

Definition is_uint8 (v : Z) : Prop := 0 <= v <= 255.

Definition uint8_pixel (p : BGR) : Prop :=
  is_uint8 p.1.1 /\ is_uint8 p.1.2 /\ is_uint8 p.2.

Module np.

(** [np.zeros((h, w, 3), np.uint8)]. *)
Definition zeros (h w : Z) : Image :=
  replicate (Z.to_nat h) (replicate (Z.to_nat w) (0, 0, 0)).

End np.

(** The OpenCV calls made by the two shells.  OpenCV is an external library:
    each function below follows its documented behaviour on 8-bit images. *)

Module cv2.

(** Whether the pixel centre [c] lies within half the [thickness] of the
    segment from [pt1] to [pt2], in exact integer arithmetic (the squared
    distance to the nearest point of the segment, scaled by the squared
    length).  For [pt1 = pt2] this is the disc around the point. *)
Definition on_stroke (pt1 pt2 : Point) (thickness : Z) (c : Point) : bool :=
  let dx := pt2.1 - pt1.1 in
  let dy := pt2.2 - pt1.2 in
  let vx := c.1 - pt1.1 in
  let vy := c.2 - pt1.2 in
  let dd := dx * dx + dy * dy in
  let t := Z.max 0 (Z.min dd (vx * dx + vy * dy)) in
  let ex := vx * dd - t * dx in
  let ey := vy * dd - t * dy in
  if dd =? 0 then 4 * (vx * vx + vy * vy) <=? thickness * thickness
  else 4 * (ex * ex + ey * ey) <=? thickness * thickness * (dd * dd).

(** [cv2.line(img, pt1, pt2, color, thickness)] with the default line type
    (8-connected, no anti-aliasing): the stroke is clipped to the image, a
    pixel of the stroke takes exactly [color], every other pixel is kept.
    OpenCV paints the round caps at both end points also when the two end
    points coincide, so such a call leaves a dot.  The outline of a thick
    stroke is OpenCV's own and may differ from [on_stroke] by a few pixels
    at its rim; the statements below use only which calls are made, that a
    painted pixel takes [color], that the others are kept, and that the end
    points are painted. *)
Definition line (img : Image) (pt1 pt2 : Point) (color : BGR) (thickness : Z)
    : Image :=
  imap (fun r row =>
          imap (fun c px =>
                  if on_stroke pt1 pt2 thickness (Z.of_nat c, Z.of_nat r)
                  then color else px) row) img.

(** [COLOR_BGR2GRAY] on 8-bit pixels: OpenCV computes
    Y = 0.299 R + 0.587 G + 0.114 B in 15-bit fixed point, with the
    coefficients 9798, 19235 and 3735 and rounding by adding [1 << 14]. *)
Definition gray_of (p : BGR) : Z :=
  Z.shiftr (3735 * p.1.1 + 19235 * p.1.2 + 9798 * p.2 + 16384) 15.

Definition cvtColor_BGR2GRAY (src : Image) : GrayImage :=
  map (map gray_of) src.

(** [COLOR_GRAY2BGR]: the intensity copied to the three channels. *)
Definition cvtColor_GRAY2BGR (src : GrayImage) : Image :=
  map (map (fun v => (v, v, v))) src.

(** [cv2.threshold(src, thresh, maxval, THRESH_BINARY_INV)]:
    0 where [src > thresh], [maxval] elsewhere. *)
Definition threshold_BINARY_INV (src : GrayImage) (thresh maxval : Z)
    : GrayImage :=
  map (map (fun v => if thresh <? v then 0 else maxval)) src.

Definition and_pixel (p q : BGR) : BGR :=
  (Z.land p.1.1 q.1.1, Z.land p.1.2 q.1.2, Z.land p.2 q.2).

Definition or_pixel (p q : BGR) : BGR :=
  (Z.lor p.1.1 q.1.1, Z.lor p.1.2 q.1.2, Z.lor p.2 q.2).

Definition bitwise_and (src1 src2 : Image) : Image :=
  zip_with (zip_with and_pixel) src1 src2.

Definition bitwise_or (src1 src2 : Image) : Image :=
  zip_with (zip_with or_pixel) src1 src2.

End cv2.

(** "Merge Canvas with Frame": main.py lines 173-180 and app.py lines
    150-155 are the same five statements. *)
Definition merge_canvas (canvas frame : Image) : Image :=
  let canvas_gray := cv2.cvtColor_BGR2GRAY canvas in
  let canvas_inv := cv2.threshold_BINARY_INV canvas_gray 20 255 in
  let canvas_inv := cv2.cvtColor_GRAY2BGR canvas_inv in
  let frame := cv2.bitwise_and frame canvas_inv in
  let frame := cv2.bitwise_or frame canvas in
  frame.

(** ** src/main.py: the desktop shell *)

Module Main.

Definition CAMERA_WIDTH : Z := 1280.
Definition CAMERA_HEIGHT : Z := 720.
Definition BRUSH_THICKNESS : Z := 15.
Definition ERASER_THICKNESS : Z := 50.

Definition COLORS : list (string * BGR) :=
  [ ("purple"%string, (255, 0, 255));
    ("blue"%string, (255, 0, 0));
    ("green"%string, (0, 255, 0));
    ("red"%string, (0, 0, 255));
    ("yellow"%string, (0, 255, 255));
    ("white"%string, (255, 255, 255)) ].

(** The local variables of [main] that live across iterations of the loop. *)
Record locals : Type := {
  draw_color : BGR;
  brush_thickness : Z;
  canvas : Image;
  prev_x : Z;
  prev_y : Z
}.

Definition palette : ColorPalette.palette := ColorPalette.init CAMERA_WIDTH 100.

(** The state before the first iteration (lines 47-73);
    [draw_color = COLORS['purple']]. *)
Definition init : locals :=
  {| draw_color := (255, 0, 255);
     brush_thickness := BRUSH_THICKNESS;
     canvas := np.zeros CAMERA_HEIGHT CAMERA_WIDTH;
     prev_x := 0;
     prev_y := 0 |}.

(** "Gesture Recognition": the [if]/[elif] chain of lines 121-167. *)
Definition gestures (st : locals) (fingers : list Z) (index_tip : option Point)
    : locals :=
  if decide (fingers = [0; 1; 1; 0; 0]) then
    let st := {| draw_color := draw_color st;
                 brush_thickness := brush_thickness st;
                 canvas := canvas st;
                 prev_x := 0; prev_y := 0 |} in
    match index_tip with
    | Some (x, y) =>
        match ColorPalette.check_selection palette x y with
        | Some selected =>
            {| draw_color := selected;
               brush_thickness := brush_thickness st;
               canvas := canvas st;
               prev_x := prev_x st; prev_y := prev_y st |}
        | None => st
        end
    | None => st
    end
  else if decide (fingers = [0; 1; 0; 0; 0]) then
    match index_tip with
    | Some (x, y) =>
        let prev :=
          if (prev_x st =? 0) && (prev_y st =? 0) then (x, y)
          else (prev_x st, prev_y st) in
        {| draw_color := draw_color st;
           brush_thickness := brush_thickness st;
           canvas := cv2.line (canvas st) prev (x, y)
                       (draw_color st) (brush_thickness st);
           prev_x := x; prev_y := y |}
    | None => st
    end
  else if decide (fingers = [1; 1; 1; 1; 1]) then
    {| draw_color := draw_color st;
       brush_thickness := brush_thickness st;
       canvas := np.zeros CAMERA_HEIGHT CAMERA_WIDTH;
       prev_x := 0; prev_y := 0 |}
  else
    {| draw_color := draw_color st;
       brush_thickness := brush_thickness st;
       canvas := canvas st;
       prev_x := 0; prev_y := 0 |}.

(** One iteration of the loop from the detected [landmark_list] to the end
    of the gesture chain (lines 104-167). *)
Definition frame (st : locals) (landmark_list : list HandDetector.Landmark)
    : result locals :=
  if negb (length landmark_list =? 0)%nat then
    index_tip ← HandDetector.get_finger_tip landmark_list 1;
    fingers ← HandDetector.fingers_up landmark_list;
    finger_count ← HandDetector.count_fingers landmark_list;
    Ok (gestures st fingers index_tip)
  else Ok st.

(** The [while True] loop over a finite run of frames, keyboard ignored. *)
Fixpoint loop (st : locals) (frames : list (list HandDetector.Landmark))
    : result locals :=
  match frames with
  | [] => Ok st
  | landmark_list :: rest => st' ← frame st landmark_list; loop st' rest
  end.

(** "Keyboard Controls" (lines 195-219) on [key = cv2.waitKey(1) & 0xFF];
    [None] is the [break] of ['q'].  ['s'] writes a file and leaves the
    state alone. *)
Definition keyboard (st : locals) (key : Z) : option locals :=
  let with_color (color : BGR) :=
    {| draw_color := color;
       brush_thickness := brush_thickness st;
       canvas := canvas st;
       prev_x := prev_x st; prev_y := prev_y st |} in
  if key =? ord "q"%char then None
  else if key =? ord "c"%char then
    Some {| draw_color := draw_color st;
            brush_thickness := brush_thickness st;
            canvas := np.zeros CAMERA_HEIGHT CAMERA_WIDTH;
            prev_x := prev_x st; prev_y := prev_y st |}
  else if key =? ord "s"%char then Some st
  else if key =? ord "1"%char then Some (with_color (255, 0, 255))
  else if key =? ord "2"%char then Some (with_color (255, 0, 0))
  else if key =? ord "3"%char then Some (with_color (0, 255, 0))
  else if key =? ord "4"%char then Some (with_color (0, 0, 255))
  else if key =? ord "5"%char then Some (with_color (0, 255, 255))
  else Some st.

(** The loop with its keyboard: each input is the landmark list of a frame
    and the value [cv2.waitKey(1)] returns after it (-1 when no key is
    down).  The run ends with the inputs or at ['q']. *)
Fixpoint session (st : locals)
    (inputs : list (list HandDetector.Landmark * Z)) : result locals :=
  match inputs with
  | [] => Ok st
  | (landmark_list, waitKey) :: rest =>
      st' ← frame st landmark_list;
      match keyboard st' (Z.land waitKey 255) with
      | None => Ok st'
      | Some st'' => session st'' rest
      end
  end.

End Main.

(** ** src/app.py: the web shell *)

Module App.

Definition CAMERA_WIDTH : Z := 640.
Definition CAMERA_HEIGHT : Z := 480.
Definition BRUSH_THICKNESS : Z := 15.
Definition ERASER_THICKNESS : Z := 50.
Definition MIN_BRUSH_SIZE : Z := 5.
Definition MAX_BRUSH_SIZE : Z := 50.
Definition ERASER_COLOR : BGR := (0, 0, 0).

(** The mutable attributes of [AirCanvasProcessor]. *)
Record AirCanvasProcessor : Type := {
  draw_color : BGR;
  brush_thickness : Z;
  is_eraser_mode : bool;
  previous_color : BGR;
  prev_x : Z;
  prev_y : Z;
  canvas : Image
}.

Definition palette : ColorPalette.palette := ColorPalette.init CAMERA_WIDTH 80.

(** [__init__]. *)
Definition init : AirCanvasProcessor :=
  {| draw_color := (255, 0, 255);
     brush_thickness := BRUSH_THICKNESS;
     is_eraser_mode := false;
     previous_color := (255, 0, 255);
     prev_x := 0;
     prev_y := 0;
     canvas := np.zeros CAMERA_HEIGHT CAMERA_WIDTH |}.

Definition set_prev (self : AirCanvasProcessor) (x y : Z) : AirCanvasProcessor :=
  {| draw_color := draw_color self;
     brush_thickness := brush_thickness self;
     is_eraser_mode := is_eraser_mode self;
     previous_color := previous_color self;
     prev_x := x; prev_y := y;
     canvas := canvas self |}.

Definition set_canvas (self : AirCanvasProcessor) (img : Image)
    : AirCanvasProcessor :=
  {| draw_color := draw_color self;
     brush_thickness := brush_thickness self;
     is_eraser_mode := is_eraser_mode self;
     previous_color := previous_color self;
     prev_x := prev_x self; prev_y := prev_y self;
     canvas := img |}.

Definition set_tool (self : AirCanvasProcessor) (color : BGR) (eraser : bool)
    (thickness : Z) : AirCanvasProcessor :=
  {| draw_color := color;
     brush_thickness := thickness;
     is_eraser_mode := eraser;
     previous_color := previous_color self;
     prev_x := prev_x self; prev_y := prev_y self;
     canvas := canvas self |}.

(** The [if]/[elif] chain of [recv], lines 94-148. *)
Definition gestures (self : AirCanvasProcessor) (fingers : list Z)
    (index_tip : option Point) : AirCanvasProcessor :=
  if decide (fingers = [0; 1; 1; 0; 0]) then
    let self := set_prev self 0 0 in
    match index_tip with
    | Some (x, y) =>
        match ColorPalette.check_selection palette x y with
        | Some selected =>
            if decide (selected = ERASER_COLOR)
            then set_tool self selected true ERASER_THICKNESS
            else set_tool self selected false BRUSH_THICKNESS
        | None => self
        end
    | None => self
    end
  else if decide (fingers = [0; 1; 0; 0; 0]) then
    match index_tip with
    | Some (x, y) =>
        let self :=
          if (prev_x self =? 0) && (prev_y self =? 0) then set_prev self x y
          else self in
        let self :=
          set_canvas self
            (cv2.line (canvas self) (prev_x self, prev_y self) (x, y)
               (draw_color self) (brush_thickness self)) in
        set_prev self x y
    | None => self
    end
  else if decide (fingers = [1; 1; 1; 1; 1]) then
    set_prev (set_canvas self (np.zeros CAMERA_HEIGHT CAMERA_WIDTH)) 0 0
  else if decide (fingers = [0; 0; 0; 0; 0]) then
    set_prev (set_tool self ERASER_COLOR true ERASER_THICKNESS) 0 0
  else
    set_prev self 0 0.

(** [recv], from the detected [landmark_list] to the end of the gesture
    chain (lines 81-148). *)
Definition recv (self : AirCanvasProcessor)
    (landmark_list : list HandDetector.Landmark) : result AirCanvasProcessor :=
  if negb (length landmark_list =? 0)%nat then
    index_tip ← HandDetector.get_finger_tip landmark_list 1;
    fingers ← HandDetector.fingers_up landmark_list;
    finger_count ← HandDetector.count_fingers landmark_list;
    Ok (gestures self fingers index_tip)
  else Ok self.

(** [recv] called on a finite run of frames. *)
Fixpoint stream (self : AirCanvasProcessor)
    (frames : list (list HandDetector.Landmark)) : result AirCanvasProcessor :=
  match frames with
  | [] => Ok self
  | landmark_list :: rest => self' ← recv self landmark_list; stream self' rest
  end.

Definition clear_canvas (self : AirCanvasProcessor) : AirCanvasProcessor :=
  set_canvas self (np.zeros CAMERA_HEIGHT CAMERA_WIDTH).

Definition COLORS : list (string * BGR) :=
  [ ("purple"%string, (255, 0, 255));
    ("blue"%string, (255, 0, 0));
    ("green"%string, (0, 255, 0));
    ("red"%string, (0, 0, 255));
    ("yellow"%string, (0, 255, 255)) ].

Definition set_color (self : AirCanvasProcessor) (color_name : string)
    : AirCanvasProcessor :=
  match dict_get COLORS color_name with
  | Some color => set_tool self color false BRUSH_THICKNESS
  | None => self
  end.

Definition set_brush_size (self : AirCanvasProcessor) (size : Z)
    : AirCanvasProcessor :=
  set_tool self (draw_color self) (is_eraser_mode self)
    (Z.max MIN_BRUSH_SIZE (Z.min MAX_BRUSH_SIZE size)).

(** A call of one of the methods of the processor, and a run of calls on
    it. *)
Inductive call : Type :=
| Recv (landmark_list : list HandDetector.Landmark)
| SetColor (color_name : string)
| SetBrushSize (size : Z)
| ClearCanvas.

Definition apply_call (self : AirCanvasProcessor) (c : call)
    : result AirCanvasProcessor :=
  match c with
  | Recv landmark_list => recv self landmark_list
  | SetColor color_name => Ok (set_color self color_name)
  | SetBrushSize size => Ok (set_brush_size self size)
  | ClearCanvas => Ok (clear_canvas self)
  end.

Fixpoint run (self : AirCanvasProcessor) (calls : list call)
    : result AirCanvasProcessor :=
  match calls with
  | [] => Ok self
  | c :: rest => self' ← apply_call self c; run self' rest
  end.

End App.

(** ** Synthetic hands

    Twenty-one landmarks with ids 0..20, used to run the shells on concrete
    frames. *)

(** Only the index finger raised, its tip at [(x, y)]. *)
Definition pointing_hand (x y : Z) : list HandDetector.Landmark :=
  map (fun i : nat =>
         {| HandDetector.id := Z.of_nat i;
            HandDetector.cx := x;
            HandDetector.cy := if (i =? 8)%nat then y else y + 1 |})
      (seq 0 21).

(** A fist: no tip above or left of its joint. *)
Definition fist_hand : list HandDetector.Landmark :=
  map (fun i : nat =>
         {| HandDetector.id := Z.of_nat i;
            HandDetector.cx := 100;
            HandDetector.cy := 100 |})
      (seq 0 21).

(** Only the thumb out: the thumb tip left of its joint. *)
Definition thumb_hand : list HandDetector.Landmark :=
  map (fun i : nat =>
         {| HandDetector.id := Z.of_nat i;
            HandDetector.cx := if (i =? 4)%nat then 90 else 100;
            HandDetector.cy := 100 |})
      (seq 0 21).

(** Index and middle finger raised, the index tip at [(x, y)]. *)
Definition selecting_hand (x y : Z) : list HandDetector.Landmark :=
  map (fun i : nat =>
         {| HandDetector.id := Z.of_nat i;
            HandDetector.cx := x;
            HandDetector.cy :=
              if ((i =? 8) || (i =? 12))%nat then y else y + 1 |})
      (seq 0 21).

(** An open palm: every tip above and left of its joint. *)
Definition palm_hand : list HandDetector.Landmark :=
  map (fun i : nat =>
         {| HandDetector.id := Z.of_nat i;
            HandDetector.cx := if (i =? 4)%nat then 90 else 100;
            HandDetector.cy :=
              if ((i =? 8) || (i =? 12) || (i =? 16) || (i =? 20))%nat
              then 90 else 100 |})
      (seq 0 21).

(** ** Vocabulary of the statements *)

(** The bit [fingers_up] appends for a tip and the joint it is compared
    with. *)
Definition up (tip joint : Z) : Z := if tip <? joint then 1 else 0.

(** A frame in which a hand is detected, [fingers_up] answers [fingers] and
    [get_finger_tip(1)] answers [tip]. *)
Definition shows (landmark_list : list HandDetector.Landmark)
    (fingers : list Z) (tip : Point) : Prop :=
  landmark_list <> [] /\
  HandDetector.fingers_up landmark_list = Ok fingers /\
  HandDetector.get_finger_tip landmark_list 1 = Ok (Some tip).

(** The 32 finger vectors, and the four that start an action. *)
Definition finger_vectors : list (list Z) :=
  t ← [0; 1]; i ← [0; 1]; m ← [0; 1]; r ← [0; 1]; p ← [0; 1];
  [[t; i; m; r; p]].

Definition patterns : list (list Z) :=
  [[0; 1; 1; 0; 0]; [0; 1; 0; 0; 0]; [1; 1; 1; 1; 1]; [0; 0; 0; 0; 0]].

(** The swatch colours in palette order. *)
Definition swatch (i : Z) : option BGR :=
  snd <$> (ColorPalette.colors (ColorPalette.init 0 0) !! Z.to_nat i).

(** The six colours of the swatches. *)
Definition swatch_colors : list BGR :=
  (ColorPalette.colors (ColorPalette.init 0 0)).*2.

(** An image of [h] rows of [w] pixels. *)
Definition shaped (h w : Z) (img : Image) : Prop :=
  length img = Z.to_nat h /\ Forall (fun row => length row = Z.to_nat w) img.

(** An image all of whose pixels have one of the colours [cols]. *)
Definition painted_with (cols : list BGR) (img : Image) : Prop :=
  Forall (Forall (fun px => px ∈ cols)) img.

(** What stays true of the desktop shell between iterations. *)
Definition Main_inv (st : Main.locals) : Prop :=
  Main.brush_thickness st = Main.BRUSH_THICKNESS /\
  Main.draw_color st ∈ swatch_colors /\
  shaped Main.CAMERA_HEIGHT Main.CAMERA_WIDTH (Main.canvas st) /\
  painted_with swatch_colors (Main.canvas st).

(** What stays true of the processor of the web shell between calls. *)
Definition App_inv (self : App.AirCanvasProcessor) : Prop :=
  (App.is_eraser_mode self = true <-> App.draw_color self = App.ERASER_COLOR) /\
  App.draw_color self ∈ swatch_colors /\
  App.MIN_BRUSH_SIZE <= App.brush_thickness self <= App.MAX_BRUSH_SIZE /\
  shaped App.CAMERA_HEIGHT App.CAMERA_WIDTH (App.canvas self) /\
  painted_with swatch_colors (App.canvas self).

(** The strokes of a path: a segment from [prev] to the first point, from
    there to the second, and so on. *)
Fixpoint draw_path (img : Image) (prev : Point) (pts : list Point)
    (color : BGR) (thickness : Z) : Image :=
  match pts with
  | [] => img
  | p :: rest =>
      draw_path (cv2.line img prev p color thickness) p rest color thickness
  end.

(** * Properties *)

(** ** The classifier *)

Lemma up_spec (tip joint : Z) :
  (up tip joint = 1 <-> tip < joint) /\ (up tip joint = 0 <-> ~ tip < joint).
Proof.
  unfold up. destruct (Z.ltb_spec tip joint); split; split; intros; lia.
Qed.

(** What [fingers_up] reads, and what it answers, on a hand that has the
    ten landmarks it looks at. *)
Lemma fingers_up_hand (lm : list HandDetector.Landmark)
    (l3 l4 l6 l8 l10 l12 l14 l16 l18 l20 : HandDetector.Landmark) :
  lm !! 3%nat = Some l3 -> lm !! 4%nat = Some l4 ->
  lm !! 6%nat = Some l6 -> lm !! 8%nat = Some l8 ->
  lm !! 10%nat = Some l10 -> lm !! 12%nat = Some l12 ->
  lm !! 14%nat = Some l14 -> lm !! 16%nat = Some l16 ->
  lm !! 18%nat = Some l18 -> lm !! 20%nat = Some l20 ->
  HandDetector.fingers_up lm =
    Ok [ up (HandDetector.cx l4) (HandDetector.cx l3);
         up (HandDetector.cy l8) (HandDetector.cy l6);
         up (HandDetector.cy l12) (HandDetector.cy l10);
         up (HandDetector.cy l16) (HandDetector.cy l14);
         up (HandDetector.cy l20) (HandDetector.cy l18) ].
Proof.
  intros H3 H4 H6 H8 H10 H12 H14 H16 H18 H20.
  unfold HandDetector.fingers_up.
  destruct lm as [|l0 lm]; [discriminate|].
  cbn [length Nat.eqb].
  unfold getitem, HandDetector.THUMB_TIP, HandDetector.INDEX_TIP,
    HandDetector.MIDDLE_TIP, HandDetector.RING_TIP, HandDetector.PINKY_TIP.
  cbn [Nat.sub HandDetector.fingers_up_loop].
  unfold getitem.
  rewrite H3, H4, H6, H8, H10, H12, H14, H16, H18, H20.
  reflexivity.
Qed.

(** A successful answer on a detected hand means the ten landmarks were
    there. *)
Lemma fingers_up_inv (lm : list HandDetector.Landmark) (fv : list Z) :
  lm <> [] -> HandDetector.fingers_up lm = Ok fv ->
  exists l3 l4 l6 l8 l10 l12 l14 l16 l18 l20,
    lm !! 3%nat = Some l3 /\ lm !! 4%nat = Some l4 /\
    lm !! 6%nat = Some l6 /\ lm !! 8%nat = Some l8 /\
    lm !! 10%nat = Some l10 /\ lm !! 12%nat = Some l12 /\
    lm !! 14%nat = Some l14 /\ lm !! 16%nat = Some l16 /\
    lm !! 18%nat = Some l18 /\ lm !! 20%nat = Some l20.
Proof.
  intros Hne H.
  destruct lm as [|l0 lm]; [congruence|].
  unfold HandDetector.fingers_up in H.
  cbn [length Nat.eqb] in H.
  unfold getitem, HandDetector.THUMB_TIP, HandDetector.INDEX_TIP,
    HandDetector.MIDDLE_TIP, HandDetector.RING_TIP, HandDetector.PINKY_TIP in H.
  cbn [Nat.sub HandDetector.fingers_up_loop] in H.
  unfold getitem in H.
  repeat match type of H with
         | context [?l !! ?i] =>
             let o := fresh "o" in
             let E := fresh "E" in
             destruct (l !! i) as [o|] eqn:E; cbn in H; [|discriminate]
         end.
  eauto 20.
Qed.

Lemma get_finger_tip_index (lm : list HandDetector.Landmark)
    (l8 : HandDetector.Landmark) :
  lm !! 8%nat = Some l8 ->
  HandDetector.get_finger_tip lm 1 =
    Ok (Some (HandDetector.cx l8, HandDetector.cy l8)).
Proof.
  intros H8. unfold HandDetector.get_finger_tip.
  destruct lm as [|l0 lm]; [discriminate|].
  cbn [length Nat.eqb]. unfold getitem_int, getitem. cbn.
  change (Z.to_nat 1) with 1%nat. cbn. cbn in H8. rewrite H8. reflexivity.
Qed.

(** A detected hand on which [fingers_up] answers also has an index tip. *)
Lemma shows_of_fingers_up (lm : list HandDetector.Landmark) (fv : list Z) :
  lm <> [] -> HandDetector.fingers_up lm = Ok fv -> exists tip, shows lm fv tip.
Proof.
  intros Hne H.
  destruct (fingers_up_inv lm fv Hne H)
    as (l3 & l4 & l6 & l8 & l10 & l12 & l14 & l16 & l18 & l20 & H'); intuition.
  exists (HandDetector.cx l8, HandDetector.cy l8).
  repeat split; auto using get_finger_tip_index.
Qed.

Lemma fingers_up_nil : HandDetector.fingers_up [] = Ok [0; 0; 0; 0; 0].
Proof. reflexivity. Qed.

(** ** The two shells on a frame with a hand, and on one without *)

Lemma Main_frame_shows (st : Main.locals) (lm : list HandDetector.Landmark)
    (fv : list Z) (tip : Point) :
  shows lm fv tip -> Main.frame st lm = Ok (Main.gestures st fv (Some tip)).
Proof.
  intros (Hne & Hf & Ht). unfold Main.frame, HandDetector.count_fingers.
  destruct lm as [|l0 lm]; [congruence|].
  cbn [length Nat.eqb negb]. rewrite Ht, Hf. reflexivity.
Qed.

Lemma App_recv_shows (self : App.AirCanvasProcessor)
    (lm : list HandDetector.Landmark) (fv : list Z) (tip : Point) :
  shows lm fv tip -> App.recv self lm = Ok (App.gestures self fv (Some tip)).
Proof.
  intros (Hne & Hf & Ht). unfold App.recv, HandDetector.count_fingers.
  destruct lm as [|l0 lm]; [congruence|].
  cbn [length Nat.eqb negb]. rewrite Ht, Hf. reflexivity.
Qed.

Lemma Main_frame_nil (st : Main.locals) : Main.frame st [] = Ok st.
Proof. reflexivity. Qed.

Lemma App_recv_nil (self : App.AirCanvasProcessor) : App.recv self [] = Ok self.
Proof. reflexivity. Qed.

(** The branches of the two gesture chains. *)

Ltac chain := repeat case_decide; try discriminate; try congruence; try reflexivity.

Lemma Main_gestures_draw (st : Main.locals) (x y : Z) :
  Main.gestures st [0; 1; 0; 0; 0] (Some (x, y)) =
    {| Main.draw_color := Main.draw_color st;
       Main.brush_thickness := Main.brush_thickness st;
       Main.canvas :=
         cv2.line (Main.canvas st)
           (if (Main.prev_x st =? 0) && (Main.prev_y st =? 0) then (x, y)
            else (Main.prev_x st, Main.prev_y st))
           (x, y) (Main.draw_color st) (Main.brush_thickness st);
       Main.prev_x := x; Main.prev_y := y |}.
Proof. unfold Main.gestures. chain. Qed.

Lemma App_gestures_draw (self : App.AirCanvasProcessor) (x y : Z) :
  App.gestures self [0; 1; 0; 0; 0] (Some (x, y)) =
    App.set_prev
      (App.set_canvas self
         (cv2.line (App.canvas self)
            (if (App.prev_x self =? 0) && (App.prev_y self =? 0) then (x, y)
             else (App.prev_x self, App.prev_y self))
            (x, y) (App.draw_color self) (App.brush_thickness self))) x y.
Proof.
  unfold App.gestures. chain.
  destruct ((App.prev_x self =? 0) && (App.prev_y self =? 0)); reflexivity.
Qed.

Lemma Main_gestures_idle (st : Main.locals) (fv : list Z) (tip : option Point) :
  fv <> [0; 1; 1; 0; 0] -> fv <> [0; 1; 0; 0; 0] -> fv <> [1; 1; 1; 1; 1] ->
  Main.gestures st fv tip =
    {| Main.draw_color := Main.draw_color st;
       Main.brush_thickness := Main.brush_thickness st;
       Main.canvas := Main.canvas st;
       Main.prev_x := 0; Main.prev_y := 0 |}.
Proof. intros. unfold Main.gestures. chain. Qed.

Lemma App_gestures_idle (self : App.AirCanvasProcessor) (fv : list Z)
    (tip : option Point) :
  fv <> [0; 1; 1; 0; 0] -> fv <> [0; 1; 0; 0; 0] -> fv <> [1; 1; 1; 1; 1] ->
  fv <> [0; 0; 0; 0; 0] ->
  App.gestures self fv tip = App.set_prev self 0 0.
Proof. intros. unfold App.gestures. chain. Qed.

Lemma App_gestures_fist (self : App.AirCanvasProcessor) (tip : option Point) :
  App.gestures self [0; 0; 0; 0; 0] tip =
    App.set_prev (App.set_tool self App.ERASER_COLOR true App.ERASER_THICKNESS) 0 0.
Proof. unfold App.gestures. chain. Qed.

Lemma Main_gestures_palm (st : Main.locals) (tip : option Point) :
  Main.gestures st [1; 1; 1; 1; 1] tip =
    {| Main.draw_color := Main.draw_color st;
       Main.brush_thickness := Main.brush_thickness st;
       Main.canvas := np.zeros Main.CAMERA_HEIGHT Main.CAMERA_WIDTH;
       Main.prev_x := 0; Main.prev_y := 0 |}.
Proof. unfold Main.gestures. chain. Qed.

Lemma App_gestures_palm (self : App.AirCanvasProcessor) (tip : option Point) :
  App.gestures self [1; 1; 1; 1; 1] tip =
    App.set_prev
      (App.set_canvas self (np.zeros App.CAMERA_HEIGHT App.CAMERA_WIDTH)) 0 0.
Proof. unfold App.gestures. chain. Qed.

(** The synthetic hands show what they are named after. *)

Lemma pointing_hand_shows (x y : Z) :
  shows (pointing_hand x y) [0; 1; 0; 0; 0] (x, y).
Proof.
  split; [discriminate|]. split; [|reflexivity].
  unfold pointing_hand. cbn. unfold getitem. cbn.
  rewrite !Z.ltb_irrefl.
  replace (y <? y + 1) with true by (symmetry; apply Z.ltb_lt; lia).
  reflexivity.
Qed.

Lemma fist_hand_shows : shows fist_hand [0; 0; 0; 0; 0] (100, 100).
Proof. split; [discriminate|]. split; reflexivity. Qed.

Lemma thumb_hand_shows : shows thumb_hand [1; 0; 0; 0; 0] (100, 100).
Proof. split; [discriminate|]. split; reflexivity. Qed.

(** ** Claims *)

(** C2.  The classifier answers [[0,0,0,0,0]] on an empty snapshot; on a
    snapshot that has the landmarks it reads, it answers
    [[thumb, index, middle, ring, pinky]] where every entry is 0 or 1, the
    thumb entry is 1 exactly when the x of landmark 4 is strictly less than
    the x of landmark 3, and the entry of each other finger is 1 exactly
    when the y of its tip (8, 12, 16, 20) is strictly less than the y of the
    landmark two positions before it (6, 10, 14, 18). *)
Theorem fingers_up_classifies :
  HandDetector.fingers_up [] = Ok [0; 0; 0; 0; 0] /\
  forall (lm : list HandDetector.Landmark)
         (l3 l4 l6 l8 l10 l12 l14 l16 l18 l20 : HandDetector.Landmark),
    lm !! 3%nat = Some l3 -> lm !! 4%nat = Some l4 ->
    lm !! 6%nat = Some l6 -> lm !! 8%nat = Some l8 ->
    lm !! 10%nat = Some l10 -> lm !! 12%nat = Some l12 ->
    lm !! 14%nat = Some l14 -> lm !! 16%nat = Some l16 ->
    lm !! 18%nat = Some l18 -> lm !! 20%nat = Some l20 ->
    exists thumb index middle ring pinky : Z,
      HandDetector.fingers_up lm = Ok [thumb; index; middle; ring; pinky] /\
      Forall (fun b => b = 0 \/ b = 1) [thumb; index; middle; ring; pinky] /\
      (thumb = 1 <-> HandDetector.cx l4 < HandDetector.cx l3) /\
      (index = 1 <-> HandDetector.cy l8 < HandDetector.cy l6) /\
      (middle = 1 <-> HandDetector.cy l12 < HandDetector.cy l10) /\
      (ring = 1 <-> HandDetector.cy l16 < HandDetector.cy l14) /\
      (pinky = 1 <-> HandDetector.cy l20 < HandDetector.cy l18).
Proof.
  split; [reflexivity|].
  intros lm l3 l4 l6 l8 l10 l12 l14 l16 l18 l20
    H3 H4 H6 H8 H10 H12 H14 H16 H18 H20.
  do 5 eexists. split.
  - eapply fingers_up_hand; eassumption.
  - split.
    + repeat match goal with |- Forall _ _ => constructor end;
        unfold up;
        match goal with |- context [?a <? ?b] => destruct (a <? b) end; auto.
    + repeat split; intros; apply up_spec; assumption.
Qed.

Lemma fingers_up_classifies_witness :
  exists thumb index middle ring pinky : Z,
    HandDetector.fingers_up (pointing_hand 3 5) =
      Ok [thumb; index; middle; ring; pinky] /\
    Forall (fun b => b = 0 \/ b = 1) [thumb; index; middle; ring; pinky] /\
    (thumb = 1 <-> 3 < 3) /\ (index = 1 <-> 5 < 6) /\ (middle = 1 <-> 6 < 6) /\
    (ring = 1 <-> 6 < 6) /\ (pinky = 1 <-> 6 < 6).
Proof.
  apply (proj2 fingers_up_classifies (pointing_hand 3 5)
           (HandDetector.Build_Landmark 3 3 6) (HandDetector.Build_Landmark 4 3 6)
           (HandDetector.Build_Landmark 6 3 6) (HandDetector.Build_Landmark 8 3 5)
           (HandDetector.Build_Landmark 10 3 6) (HandDetector.Build_Landmark 12 3 6)
           (HandDetector.Build_Landmark 14 3 6) (HandDetector.Build_Landmark 16 3 6)
           (HandDetector.Build_Landmark 18 3 6) (HandDetector.Build_Landmark 20 3 6));
    reflexivity.
Defined.

(** C1.  When the finger vector is none of [[0,1,1,0,0]], [[0,1,0,0,0]],
    [[1,1,1,1,1]], [[0,0,0,0,0]], the gesture chain of either shell takes
    its last branch whatever the fingertip: the canvas, the colour and the
    thickness (and the eraser flag of the web shell) are kept and the
    previous cursor becomes (0,0); a frame whose hand gives such a vector
    is processed to exactly that state. *)
Theorem unmatched_vector_is_idle (fv : list Z) :
  fv <> [0; 1; 1; 0; 0] -> fv <> [0; 1; 0; 0; 0] ->
  fv <> [1; 1; 1; 1; 1] -> fv <> [0; 0; 0; 0; 0] ->
  (forall (st : Main.locals) (tip : option Point),
      Main.gestures st fv tip =
        {| Main.draw_color := Main.draw_color st;
           Main.brush_thickness := Main.brush_thickness st;
           Main.canvas := Main.canvas st;
           Main.prev_x := 0; Main.prev_y := 0 |}) /\
  (forall (self : App.AirCanvasProcessor) (tip : option Point),
      App.gestures self fv tip =
        {| App.draw_color := App.draw_color self;
           App.brush_thickness := App.brush_thickness self;
           App.is_eraser_mode := App.is_eraser_mode self;
           App.previous_color := App.previous_color self;
           App.prev_x := 0; App.prev_y := 0;
           App.canvas := App.canvas self |}) /\
  (forall lm : list HandDetector.Landmark,
      HandDetector.fingers_up lm = Ok fv ->
      (forall st : Main.locals,
          Main.frame st lm =
            Ok {| Main.draw_color := Main.draw_color st;
                  Main.brush_thickness := Main.brush_thickness st;
                  Main.canvas := Main.canvas st;
                  Main.prev_x := 0; Main.prev_y := 0 |}) /\
      (forall self : App.AirCanvasProcessor,
          App.recv self lm =
            Ok {| App.draw_color := App.draw_color self;
                  App.brush_thickness := App.brush_thickness self;
                  App.is_eraser_mode := App.is_eraser_mode self;
                  App.previous_color := App.previous_color self;
                  App.prev_x := 0; App.prev_y := 0;
                  App.canvas := App.canvas self |})).
Proof.
  intros H1 H2 H3 H4.
  split; [intros; apply Main_gestures_idle; assumption|].
  split; [intros; rewrite App_gestures_idle by assumption; reflexivity|].
  intros lm Hf.
  assert (Hne : lm <> []) by (intros ->; rewrite fingers_up_nil in Hf; congruence).
  destruct (shows_of_fingers_up lm fv Hne Hf) as [tip Hs].
  split; intros.
  - rewrite (Main_frame_shows _ _ _ _ Hs). f_equal.
    apply Main_gestures_idle; assumption.
  - rewrite (App_recv_shows _ _ _ _ Hs), App_gestures_idle by assumption.
    reflexivity.
Qed.

Lemma unmatched_vector_is_idle_witness :
  Main.frame Main.init thumb_hand =
    Ok {| Main.draw_color := (255, 0, 255);
          Main.brush_thickness := 15;
          Main.canvas := Main.canvas Main.init;
          Main.prev_x := 0; Main.prev_y := 0 |} /\
  App.recv (App.set_prev App.init 7 9) thumb_hand = Ok App.init.
Proof.
  assert (H : HandDetector.fingers_up thumb_hand = Ok [1; 0; 0; 0; 0])
    by reflexivity.
  split.
  - apply (proj1 (proj2 (proj2 (unmatched_vector_is_idle [1; 0; 0; 0; 0]
             ltac:(discriminate) ltac:(discriminate) ltac:(discriminate)
             ltac:(discriminate))) thumb_hand H) Main.init).
  - apply (proj2 (proj2 (proj2 (unmatched_vector_is_idle [1; 0; 0; 0; 0]
             ltac:(discriminate) ltac:(discriminate) ltac:(discriminate)
             ltac:(discriminate))) thumb_hand H) (App.set_prev App.init 7 9)).
Defined.

(** The vectors C1 ranges over: 28 of the 32, each sent to the last branch
    by both chains. *)
Lemma idle_vectors :
  length (filter (fun fv => fv ∉ patterns) finger_vectors) = 28%nat /\
  Forall (fun fv =>
            forall (st : Main.locals) (self : App.AirCanvasProcessor)
                   (tip : option Point),
              Main.canvas (Main.gestures st fv tip) = Main.canvas st /\
              (Main.prev_x (Main.gestures st fv tip),
               Main.prev_y (Main.gestures st fv tip)) = (0, 0) /\
              App.gestures self fv tip = App.set_prev self 0 0)
    (filter (fun fv => fv ∉ patterns) finger_vectors).
Proof.
  split; [vm_compute; reflexivity|].
  apply Forall_forall. intros fv Hfv.
  apply list_elem_of_filter in Hfv as [Hout _].
  unfold patterns in Hout.
  assert (fv <> [0; 1; 1; 0; 0] /\ fv <> [0; 1; 0; 0; 0] /\
          fv <> [1; 1; 1; 1; 1] /\ fv <> [0; 0; 0; 0; 0]) as (H1 & H2 & H3 & H4).
  { repeat split; intros ->; apply Hout; repeat constructor. }
  intros st self tip.
  rewrite Main_gestures_idle, App_gestures_idle by assumption.
  repeat split.
Qed.

(** C3, as stated, fails on the desktop shell: its gesture chain has no
    branch for the fist, so a fist frame keeps the colour (here the initial
    purple) instead of switching to the eraser. *)
Lemma fist_is_eraser_in_both_shells_fails :
  ~ (forall lm : list HandDetector.Landmark,
        lm <> [] ->
        HandDetector.fingers_up lm = Ok [0; 0; 0; 0; 0] ->
        (forall self : App.AirCanvasProcessor,
            exists self', App.recv self lm = Ok self' /\
              App.draw_color self' = App.ERASER_COLOR /\
              App.brush_thickness self' = App.ERASER_THICKNESS /\
              (App.prev_x self', App.prev_y self') = (0, 0)) /\
        (forall st : Main.locals,
            exists st', Main.frame st lm = Ok st' /\
              Main.draw_color st' = (0, 0, 0) /\
              Main.brush_thickness st' = Main.ERASER_THICKNESS /\
              (Main.prev_x st', Main.prev_y st') = (0, 0))).
Proof.
  intros H.
  destruct (H fist_hand ltac:(discriminate) eq_refl) as [_ HM].
  destruct (HM Main.init) as (st' & Hrun & Hcol & _).
  rewrite (Main_frame_shows _ _ _ _ fist_hand_shows) in Hrun.
  rewrite Main_gestures_idle in Hrun by discriminate.
  injection Hrun as <-. discriminate Hcol.
Qed.

(** C3, amended.  On a frame with a detected hand whose finger vector is
    [[0,0,0,0,0]], the web shell sets the colour to the eraser colour
    (black), the thickness to the eraser thickness and the eraser flag, and
    resets the previous cursor, leaving the canvas alone; the desktop shell
    only resets the previous cursor and keeps colour, thickness and
    canvas. *)
Theorem fist_frame (lm : list HandDetector.Landmark) :
  lm <> [] ->
  HandDetector.fingers_up lm = Ok [0; 0; 0; 0; 0] ->
  (forall self : App.AirCanvasProcessor,
      exists self', App.recv self lm = Ok self' /\
        App.draw_color self' = (0, 0, 0) /\
        App.brush_thickness self' = 50 /\
        App.is_eraser_mode self' = true /\
        (App.prev_x self', App.prev_y self') = (0, 0) /\
        App.canvas self' = App.canvas self) /\
  (forall st : Main.locals,
      exists st', Main.frame st lm = Ok st' /\
        Main.draw_color st' = Main.draw_color st /\
        Main.brush_thickness st' = Main.brush_thickness st /\
        (Main.prev_x st', Main.prev_y st') = (0, 0) /\
        Main.canvas st' = Main.canvas st).
Proof.
  intros Hne Hf.
  destruct (shows_of_fingers_up lm _ Hne Hf) as [tip Hs].
  split; intros.
  - eexists. split.
    + rewrite (App_recv_shows _ _ _ _ Hs), App_gestures_fist. reflexivity.
    + repeat split.
  - eexists. split.
    + rewrite (Main_frame_shows _ _ _ _ Hs), Main_gestures_idle by discriminate.
      reflexivity.
    + repeat split.
Qed.

Lemma fist_frame_witness :
  fist_hand <> [] /\
  HandDetector.fingers_up fist_hand = Ok [0; 0; 0; 0; 0] /\
  (exists self', App.recv App.init fist_hand = Ok self' /\
     App.draw_color self' = (0, 0, 0) /\
     App.brush_thickness self' = 50 /\
     App.is_eraser_mode self' = true /\
     (App.prev_x self', App.prev_y self') = (0, 0) /\
     App.canvas self' = App.canvas App.init) /\
  (exists st', Main.frame Main.init fist_hand = Ok st' /\
     Main.draw_color st' = (255, 0, 255) /\
     Main.brush_thickness st' = 15 /\
     (Main.prev_x st', Main.prev_y st') = (0, 0) /\
     Main.canvas st' = Main.canvas Main.init).
Proof.
  split; [discriminate|]. split; [reflexivity|].
  split.
  - apply (proj1 (fist_frame fist_hand ltac:(discriminate) eq_refl) App.init).
  - apply (proj2 (fist_frame fist_hand ltac:(discriminate) eq_refl) Main.init).
Defined.

(** ** Pixels of the images the shells build *)

Lemma pixel_map {A B : Type} (f : A -> B) (img : list (list A)) (r c : nat) :
  pixel (map (map f) img) r c = f <$> pixel img r c.
Proof.
  unfold pixel. rewrite list_lookup_fmap.
  destruct (img !! r) as [row|]; cbn; [apply list_lookup_fmap|reflexivity].
Qed.

Lemma pixel_zip_with {A B C : Type} (f : A -> B -> C)
    (a : list (list A)) (b : list (list B)) (r c : nat) (p : A) (q : B) :
  pixel a r c = Some p -> pixel b r c = Some q ->
  pixel (zip_with (zip_with f) a b) r c = Some (f p q).
Proof.
  unfold pixel. intros Ha Hb. rewrite lookup_zip_with.
  destruct (a !! r) as [ra|]; [|discriminate].
  destruct (b !! r) as [rb|]; [|discriminate].
  cbn in *. rewrite lookup_zip_with, Ha, Hb. reflexivity.
Qed.

Lemma pixel_line (img : Image) (pt1 pt2 : Point) (color : BGR) (thickness : Z)
    (r c : nat) :
  pixel (cv2.line img pt1 pt2 color thickness) r c =
    (fun px => if cv2.on_stroke pt1 pt2 thickness (Z.of_nat c, Z.of_nat r)
               then color else px) <$> pixel img r c.
Proof.
  unfold pixel, cv2.line. rewrite list_lookup_imap.
  destruct (img !! r) as [row|]; cbn; [apply list_lookup_imap|reflexivity].
Qed.

Lemma pixel_zeros (h w : Z) (r c : nat) :
  (r < Z.to_nat h)%nat -> (c < Z.to_nat w)%nat ->
  pixel (np.zeros h w) r c = Some (0, 0, 0).
Proof.
  intros Hr Hc. unfold pixel, np.zeros.
  rewrite lookup_replicate_2 by assumption. cbn.
  apply lookup_replicate_2. assumption.
Qed.

(** A stroke whose two end points coincide covers that point, whatever the
    thickness. *)
Lemma on_stroke_dot (x y thickness : Z) :
  cv2.on_stroke (x, y) (x, y) thickness (x, y) = true.
Proof.
  unfold cv2.on_stroke. cbn [fst snd]. rewrite !Z.sub_diag. cbn.
  apply Z.leb_le. nia.
Qed.

Lemma land_255 (v : Z) : is_uint8 v -> Z.land v 255 = v.
Proof.
  intros [Hlo Hhi]. change 255 with (Z.ones 8).
  rewrite Z.land_ones by lia. apply Z.mod_small. lia.
Qed.

#[local] Arguments np.zeros : simpl never.
#[local] Arguments cv2.line : simpl never.

(** ** Strokes *)

(** The first Drawing frame of a stroke in the desktop shell. *)
Lemma Main_fresh_stroke (st : Main.locals) (lm : list HandDetector.Landmark)
    (x y : Z) :
  shows lm [0; 1; 0; 0; 0] (x, y) ->
  Main.prev_x st = 0 -> Main.prev_y st = 0 ->
  Main.frame st lm =
    Ok {| Main.draw_color := Main.draw_color st;
          Main.brush_thickness := Main.brush_thickness st;
          Main.canvas :=
            cv2.line (Main.canvas st) (x, y) (x, y)
              (Main.draw_color st) (Main.brush_thickness st);
          Main.prev_x := x; Main.prev_y := y |}.
Proof.
  intros Hs Hx Hy.
  rewrite (Main_frame_shows _ _ _ _ Hs), Main_gestures_draw, Hx, Hy.
  reflexivity.
Qed.

(** A Drawing frame of the desktop shell when a previous cursor is set. *)
Lemma Main_next_stroke (st : Main.locals) (lm : list HandDetector.Landmark)
    (x y : Z) :
  shows lm [0; 1; 0; 0; 0] (x, y) ->
  (Main.prev_x st, Main.prev_y st) <> (0, 0) ->
  Main.frame st lm =
    Ok {| Main.draw_color := Main.draw_color st;
          Main.brush_thickness := Main.brush_thickness st;
          Main.canvas :=
            cv2.line (Main.canvas st) (Main.prev_x st, Main.prev_y st) (x, y)
              (Main.draw_color st) (Main.brush_thickness st);
          Main.prev_x := x; Main.prev_y := y |}.
Proof.
  intros Hs Hp.
  rewrite (Main_frame_shows _ _ _ _ Hs), Main_gestures_draw.
  destruct (Z.eqb_spec (Main.prev_x st) 0) as [Ex|];
    destruct (Z.eqb_spec (Main.prev_y st) 0) as [Ey|]; cbn [andb];
    try reflexivity.
  rewrite Ex, Ey in Hp. congruence.
Qed.

Lemma App_fresh_stroke (self : App.AirCanvasProcessor)
    (lm : list HandDetector.Landmark) (x y : Z) :
  shows lm [0; 1; 0; 0; 0] (x, y) ->
  App.prev_x self = 0 -> App.prev_y self = 0 ->
  App.recv self lm =
    Ok (App.set_prev
          (App.set_canvas self
             (cv2.line (App.canvas self) (x, y) (x, y)
                (App.draw_color self) (App.brush_thickness self))) x y).
Proof.
  intros Hs Hx Hy.
  rewrite (App_recv_shows _ _ _ _ Hs), App_gestures_draw, Hx, Hy.
  reflexivity.
Qed.

Lemma App_next_stroke (self : App.AirCanvasProcessor)
    (lm : list HandDetector.Landmark) (x y : Z) :
  shows lm [0; 1; 0; 0; 0] (x, y) ->
  (App.prev_x self, App.prev_y self) <> (0, 0) ->
  App.recv self lm =
    Ok (App.set_prev
          (App.set_canvas self
             (cv2.line (App.canvas self) (App.prev_x self, App.prev_y self)
                (x, y) (App.draw_color self) (App.brush_thickness self))) x y).
Proof.
  intros Hs Hp.
  rewrite (App_recv_shows _ _ _ _ Hs), App_gestures_draw.
  destruct (Z.eqb_spec (App.prev_x self) 0) as [Ex|];
    destruct (Z.eqb_spec (App.prev_y self) 0) as [Ey|]; cbn [andb];
    try reflexivity.
  rewrite Ex, Ey in Hp. congruence.
Qed.

(** The dot of a fresh stroke: the pixel under the cursor, when it is on
    the canvas, takes the drawing colour. *)
Lemma dot_paints_cursor (img : Image) (color : BGR) (thickness : Z)
    (r c : nat) (px : BGR) :
  pixel img r c = Some px ->
  pixel (cv2.line img (Z.of_nat c, Z.of_nat r) (Z.of_nat c, Z.of_nat r)
           color thickness) r c = Some color.
Proof.
  intros H. rewrite pixel_line, H, on_stroke_dot. reflexivity.
Qed.

(** C4, as stated, fails: on the first Drawing frame after start-up, with
    the index tip at (100,100), the canvas does not stay as it was; the
    pixel under the cursor turns purple. *)
Lemma first_drawing_frame_leaves_canvas_fails :
  ~ (forall (st : Main.locals) (lm : list HandDetector.Landmark) (x y : Z),
        shows lm [0; 1; 0; 0; 0] (x, y) ->
        Main.prev_x st = 0 -> Main.prev_y st = 0 ->
        exists st', Main.frame st lm = Ok st' /\
          Main.canvas st' = Main.canvas st /\
          (Main.prev_x st', Main.prev_y st') = (x, y)).
Proof.
  intros H.
  destruct (H Main.init (pointing_hand 100 100) 100 100
              (pointing_hand_shows 100 100) eq_refl eq_refl)
    as (st' & Hrun & Hcanvas & _).
  rewrite (Main_fresh_stroke Main.init _ _ _ (pointing_hand_shows 100 100)
             eq_refl eq_refl) in Hrun.
  injection Hrun as <-. cbn [Main.canvas Main.init Main.draw_color] in Hcanvas.
  apply (f_equal (fun img => pixel img 100 100)) in Hcanvas.
  rewrite (dot_paints_cursor _ _ _ 100 100 (0, 0, 0)) in Hcanvas
    by (apply pixel_zeros; unfold Main.CAMERA_HEIGHT, Main.CAMERA_WIDTH; lia).
  rewrite pixel_zeros in Hcanvas
    by (unfold Main.CAMERA_HEIGHT, Main.CAMERA_WIDTH; lia).
  discriminate Hcanvas.
Qed.

(** C4, amended.  On a Drawing frame whose previous cursor is the sentinel
    (0,0), either shell records the cursor and calls the line primitive
    with both end points at the cursor: the canvas gets a dot there (the
    pixel under the cursor, when on the canvas, takes the drawing colour).
    When that first cursor is not (0,0) itself, the next Drawing frame adds
    exactly one segment, from the first cursor to the second. *)
Theorem fresh_stroke_then_segment (lm1 lm2 : list HandDetector.Landmark)
    (x1 y1 x2 y2 : Z) :
  shows lm1 [0; 1; 0; 0; 0] (x1, y1) ->
  shows lm2 [0; 1; 0; 0; 0] (x2, y2) ->
  (forall st : Main.locals,
      Main.prev_x st = 0 -> Main.prev_y st = 0 ->
      exists st1, Main.frame st lm1 = Ok st1 /\
        Main.canvas st1 =
          cv2.line (Main.canvas st) (x1, y1) (x1, y1)
            (Main.draw_color st) (Main.brush_thickness st) /\
        (forall (r c : nat) (px : BGR),
            Z.of_nat c = x1 -> Z.of_nat r = y1 ->
            pixel (Main.canvas st) r c = Some px ->
            pixel (Main.canvas st1) r c = Some (Main.draw_color st)) /\
        (Main.prev_x st1, Main.prev_y st1) = (x1, y1) /\
        ((x1, y1) <> (0, 0) ->
         exists st2, Main.frame st1 lm2 = Ok st2 /\
           Main.canvas st2 =
             cv2.line (Main.canvas st1) (x1, y1) (x2, y2)
               (Main.draw_color st) (Main.brush_thickness st) /\
           (Main.prev_x st2, Main.prev_y st2) = (x2, y2))) /\
  (forall self : App.AirCanvasProcessor,
      App.prev_x self = 0 -> App.prev_y self = 0 ->
      exists self1, App.recv self lm1 = Ok self1 /\
        App.canvas self1 =
          cv2.line (App.canvas self) (x1, y1) (x1, y1)
            (App.draw_color self) (App.brush_thickness self) /\
        (forall (r c : nat) (px : BGR),
            Z.of_nat c = x1 -> Z.of_nat r = y1 ->
            pixel (App.canvas self) r c = Some px ->
            pixel (App.canvas self1) r c = Some (App.draw_color self)) /\
        (App.prev_x self1, App.prev_y self1) = (x1, y1) /\
        ((x1, y1) <> (0, 0) ->
         exists self2, App.recv self1 lm2 = Ok self2 /\
           App.canvas self2 =
             cv2.line (App.canvas self1) (x1, y1) (x2, y2)
               (App.draw_color self) (App.brush_thickness self) /\
           (App.prev_x self2, App.prev_y self2) = (x2, y2))).
Proof.
  intros Hs1 Hs2. split.
  - intros st Hx Hy. eexists. split; [apply (Main_fresh_stroke _ _ _ _ Hs1 Hx Hy)|].
    cbn [Main.canvas Main.prev_x Main.prev_y Main.draw_color Main.brush_thickness].
    split; [reflexivity|]. split.
    + intros r c px <- <- Hpx. eapply dot_paints_cursor; eassumption.
    + split; [reflexivity|]. intros Hne. eexists.
      split; [apply (Main_next_stroke _ _ _ _ Hs2); exact Hne|].
      split; reflexivity.
  - intros self Hx Hy. eexists. split; [apply (App_fresh_stroke _ _ _ _ Hs1 Hx Hy)|].
    cbn [App.canvas App.prev_x App.prev_y App.draw_color App.brush_thickness
         App.set_prev App.set_canvas].
    split; [reflexivity|]. split.
    + intros r c px <- <- Hpx. eapply dot_paints_cursor; eassumption.
    + split; [reflexivity|]. intros Hne. eexists.
      split; [apply (App_next_stroke _ _ _ _ Hs2); exact Hne|].
      split; reflexivity.
Qed.

Lemma fresh_stroke_then_segment_witness :
  (exists st1 st2,
      Main.frame Main.init (pointing_hand 100 100) = Ok st1 /\
      pixel (Main.canvas st1) 100 100 = Some (255, 0, 255) /\
      (Main.prev_x st1, Main.prev_y st1) = (100, 100) /\
      Main.frame st1 (pointing_hand 110 100) = Ok st2 /\
      Main.canvas st2 =
        cv2.line (Main.canvas st1) (100, 100) (110, 100) (255, 0, 255) 15 /\
      (Main.prev_x st2, Main.prev_y st2) = (110, 100)) /\
  (exists self1 self2,
      App.recv App.init (pointing_hand 100 100) = Ok self1 /\
      pixel (App.canvas self1) 100 100 = Some (255, 0, 255) /\
      (App.prev_x self1, App.prev_y self1) = (100, 100) /\
      App.recv self1 (pointing_hand 110 100) = Ok self2 /\
      App.canvas self2 =
        cv2.line (App.canvas self1) (100, 100) (110, 100) (255, 0, 255) 15 /\
      (App.prev_x self2, App.prev_y self2) = (110, 100)).
Proof.
  pose proof (fresh_stroke_then_segment _ _ 100 100 110 100
                (pointing_hand_shows 100 100) (pointing_hand_shows 110 100))
    as [HM HA].
  split.
  - destruct (HM Main.init eq_refl eq_refl) as (st1 & H1 & _ & Hpx & Hp1 & H2).
    destruct (H2 ltac:(discriminate)) as (st2 & H3 & Hc2 & Hp2).
    exists st1, st2. repeat split; try assumption.
    apply (Hpx 100%nat 100%nat (0, 0, 0) eq_refl eq_refl).
    apply pixel_zeros; unfold Main.CAMERA_HEIGHT, Main.CAMERA_WIDTH; lia.
  - destruct (HA App.init eq_refl eq_refl) as (s1 & H1 & _ & Hpx & Hp1 & H2).
    destruct (H2 ltac:(discriminate)) as (s2 & H3 & Hc2 & Hp2).
    exists s1, s2. repeat split; try assumption.
    apply (Hpx 100%nat 100%nat (0, 0, 0) eq_refl eq_refl).
    apply pixel_zeros; unfold App.CAMERA_HEIGHT, App.CAMERA_WIDTH; lia.
Defined.

(** C10.  A Drawing frame whose fingertip is exactly (0,0) leaves the
    previous cursor equal to the sentinel (0,0); the Drawing frame that
    follows it therefore starts a fresh stroke at its own cursor (the line
    primitive gets that cursor as both end points) and draws nothing from
    (0,0).  In both shells. *)
Theorem origin_breaks_stroke (lm1 lm2 : list HandDetector.Landmark) (x2 y2 : Z) :
  shows lm1 [0; 1; 0; 0; 0] (0, 0) ->
  shows lm2 [0; 1; 0; 0; 0] (x2, y2) ->
  (forall st : Main.locals,
      exists st1, Main.frame st lm1 = Ok st1 /\
        (Main.prev_x st1, Main.prev_y st1) = (0, 0) /\
        exists st2, Main.frame st1 lm2 = Ok st2 /\
          Main.canvas st2 =
            cv2.line (Main.canvas st1) (x2, y2) (x2, y2)
              (Main.draw_color st) (Main.brush_thickness st) /\
          (Main.prev_x st2, Main.prev_y st2) = (x2, y2)) /\
  (forall self : App.AirCanvasProcessor,
      exists self1, App.recv self lm1 = Ok self1 /\
        (App.prev_x self1, App.prev_y self1) = (0, 0) /\
        exists self2, App.recv self1 lm2 = Ok self2 /\
          App.canvas self2 =
            cv2.line (App.canvas self1) (x2, y2) (x2, y2)
              (App.draw_color self) (App.brush_thickness self) /\
          (App.prev_x self2, App.prev_y self2) = (x2, y2)).
Proof.
  intros Hs1 Hs2. split.
  - intros st. eexists. split.
    + rewrite (Main_frame_shows _ _ _ _ Hs1), Main_gestures_draw. reflexivity.
    + split; [reflexivity|]. eexists.
      split; [apply (Main_fresh_stroke _ _ _ _ Hs2); reflexivity|].
      split; reflexivity.
  - intros self. eexists. split.
    + rewrite (App_recv_shows _ _ _ _ Hs1), App_gestures_draw. reflexivity.
    + split; [reflexivity|]. eexists.
      split; [apply (App_fresh_stroke _ _ _ _ Hs2); reflexivity|].
      split; reflexivity.
Qed.

Lemma origin_breaks_stroke_witness :
  exists st1 st2,
    Main.frame (Main.gestures Main.init [0; 1; 0; 0; 0] (Some (40, 30)))
      (pointing_hand 0 0) = Ok st1 /\
    (Main.prev_x st1, Main.prev_y st1) = (0, 0) /\
    Main.frame st1 (pointing_hand 60 20) = Ok st2 /\
    Main.canvas st2 = cv2.line (Main.canvas st1) (60, 20) (60, 20) (255, 0, 255) 15 /\
    (Main.prev_x st2, Main.prev_y st2) = (60, 20).
Proof.
  destruct (proj1 (origin_breaks_stroke _ _ 60 20
                     (pointing_hand_shows 0 0) (pointing_hand_shows 60 20))
              (Main.gestures Main.init [0; 1; 0; 0; 0] (Some (40, 30))))
    as (st1 & H1 & Hp & st2 & H2 & Hc & Hq).
  exists st1, st2. rewrite Main_gestures_draw in Hc. auto.
Defined.

(** A Drawing frame at a fresh cursor, a frame without a hand, and a
    second Drawing frame: the gap does not clear the previous cursor. *)
Lemma Main_gap (st : Main.locals) (lm1 lm2 : list HandDetector.Landmark)
    (x1 y1 x2 y2 : Z) :
  shows lm1 [0; 1; 0; 0; 0] (x1, y1) -> shows lm2 [0; 1; 0; 0; 0] (x2, y2) ->
  Main.prev_x st = 0 -> Main.prev_y st = 0 -> (x1, y1) <> (0, 0) ->
  Main.loop st [lm1; []] =
    Ok {| Main.draw_color := Main.draw_color st;
          Main.brush_thickness := Main.brush_thickness st;
          Main.canvas :=
            cv2.line (Main.canvas st) (x1, y1) (x1, y1)
              (Main.draw_color st) (Main.brush_thickness st);
          Main.prev_x := x1; Main.prev_y := y1 |} /\
  Main.loop st [lm1; []; lm2] =
    Ok {| Main.draw_color := Main.draw_color st;
          Main.brush_thickness := Main.brush_thickness st;
          Main.canvas :=
            cv2.line
              (cv2.line (Main.canvas st) (x1, y1) (x1, y1)
                 (Main.draw_color st) (Main.brush_thickness st))
              (x1, y1) (x2, y2) (Main.draw_color st) (Main.brush_thickness st);
          Main.prev_x := x2; Main.prev_y := y2 |}.
Proof.
  intros Hs1 Hs2 Hx Hy Hne. cbn [Main.loop].
  rewrite (Main_fresh_stroke st _ _ _ Hs1 Hx Hy).
  cbn [mbind result_bind]. rewrite Main_frame_nil. cbn [mbind result_bind].
  rewrite (Main_next_stroke _ _ _ _ Hs2) by exact Hne.
  split; reflexivity.
Qed.

Lemma App_gap (self : App.AirCanvasProcessor)
    (lm1 lm2 : list HandDetector.Landmark) (x1 y1 x2 y2 : Z) :
  shows lm1 [0; 1; 0; 0; 0] (x1, y1) -> shows lm2 [0; 1; 0; 0; 0] (x2, y2) ->
  App.prev_x self = 0 -> App.prev_y self = 0 -> (x1, y1) <> (0, 0) ->
  App.stream self [lm1; []; lm2] =
    Ok (App.set_prev
          (App.set_canvas self
             (cv2.line
                (cv2.line (App.canvas self) (x1, y1) (x1, y1)
                   (App.draw_color self) (App.brush_thickness self))
                (x1, y1) (x2, y2) (App.draw_color self)
                (App.brush_thickness self))) x2 y2).
Proof.
  intros Hs1 Hs2 Hx Hy Hne. cbn [App.stream].
  rewrite (App_fresh_stroke self _ _ _ Hs1 Hx Hy).
  cbn [mbind result_bind]. rewrite App_recv_nil. cbn [mbind result_bind].
  rewrite (App_next_stroke _ _ _ _ Hs2) by exact Hne.
  reflexivity.
Qed.

(** With a hand in the frame, every gesture other than Drawing resets the
    previous cursor, in both shells. *)
Lemma hand_frame_resets_cursor (lm : list HandDetector.Landmark)
    (fv : list Z) (tip : Point) :
  shows lm fv tip -> fv <> [0; 1; 0; 0; 0] ->
  (forall st : Main.locals,
      exists st', Main.frame st lm = Ok st' /\
        (Main.prev_x st', Main.prev_y st') = (0, 0)) /\
  (forall self : App.AirCanvasProcessor,
      exists self', App.recv self lm = Ok self' /\
        (App.prev_x self', App.prev_y self') = (0, 0)).
Proof.
  intros Hs Hnd. destruct tip as [x y]. split.
  - intros st. eexists. split; [apply (Main_frame_shows _ _ _ _ Hs)|].
    unfold Main.gestures. repeat case_decide; try congruence; try reflexivity.
    destruct (ColorPalette.check_selection Main.palette x y); reflexivity.
  - intros self. eexists. split; [apply (App_recv_shows _ _ _ _ Hs)|].
    unfold App.gestures. repeat case_decide; try congruence; try reflexivity.
    destruct (ColorPalette.check_selection App.palette x y); [|reflexivity].
    case_decide; reflexivity.
Qed.

(** C8 at its failing input.  A frame without a hand leaves the state of
    either shell as it is, previous cursor included: after a Drawing frame
    at (100,100) and a frame without a hand the previous cursor is still
    (100,100), and a Drawing frame at (500,300) coming next draws the
    segment from (100,100) to (500,300). *)
Lemma no_hand_frame_keeps_cursor :
  (forall st : Main.locals, Main.frame st [] = Ok st) /\
  (forall self : App.AirCanvasProcessor, App.recv self [] = Ok self) /\
  (exists st',
      Main.loop Main.init [pointing_hand 100 100; []] = Ok st' /\
      (Main.prev_x st', Main.prev_y st') = (100, 100)) /\
  (exists st',
      Main.loop Main.init [pointing_hand 100 100; []; pointing_hand 500 300]
        = Ok st' /\
      Main.canvas st' =
        cv2.line (cv2.line (Main.canvas Main.init) (100, 100) (100, 100) (255, 0, 255) 15)
          (100, 100) (500, 300) (255, 0, 255) 15) /\
  (exists self',
      App.stream App.init [pointing_hand 100 100; []; pointing_hand 500 300]
        = Ok self' /\
      App.canvas self' =
        cv2.line (cv2.line (App.canvas App.init) (100, 100) (100, 100) (255, 0, 255) 15)
          (100, 100) (500, 300) (255, 0, 255) 15).
Proof.
  split; [reflexivity|]. split; [reflexivity|].
  pose proof (pointing_hand_shows 100 100) as Hs1.
  pose proof (pointing_hand_shows 500 300) as Hs2.
  destruct (Main_gap Main.init _ _ _ _ _ _ Hs1 Hs2 eq_refl eq_refl
              ltac:(discriminate)) as [H1 H2].
  pose proof (App_gap App.init _ _ _ _ _ _ Hs1 Hs2 eq_refl eq_refl
                ltac:(discriminate)) as H3.
  split; [|split].
  - eexists. split; [exact H1|reflexivity].
  - eexists. split; [exact H2|reflexivity].
  - eexists. split; [exact H3|reflexivity].
Qed.

(** ** Compositing *)

(** One pixel of the merged frame, from the canvas pixel [pc] and the
    camera pixel [pf] at the same place. *)
Lemma merge_canvas_pixel (canvas frame : Image) (r c : nat) (pc pf : BGR) :
  pixel canvas r c = Some pc -> pixel frame r c = Some pf ->
  pixel (merge_canvas canvas frame) r c =
    Some (cv2.or_pixel
            (cv2.and_pixel pf
               (let m := if 20 <? cv2.gray_of pc then 0 else 255 in (m, m, m)))
            pc).
Proof.
  intros Hc Hf. unfold merge_canvas, cv2.bitwise_or, cv2.bitwise_and,
    cv2.cvtColor_GRAY2BGR, cv2.threshold_BINARY_INV, cv2.cvtColor_BGR2GRAY.
  apply pixel_zip_with; [|exact Hc].
  apply pixel_zip_with; [exact Hf|].
  rewrite !pixel_map, Hc. reflexivity.
Qed.

(** ** Clearing *)

Lemma zeros_all_background (h w : Z) :
  length (np.zeros h w) = Z.to_nat h /\
  Forall (fun row => length row = Z.to_nat w /\ Forall (eq (0, 0, 0)) row)
    (np.zeros h w).
Proof.
  unfold np.zeros. split; [apply length_replicate|].
  apply Forall_replicate. split; [apply length_replicate|].
  apply Forall_replicate. reflexivity.
Qed.

(** C7.  Clearing sets the canvas to the all-zero buffer of the camera
    size, in which every pixel of every row is (0,0,0); clearing twice
    gives the same state as clearing once.  This holds for
    [clear_canvas] of the web shell and for the open-palm branch of both
    gesture chains. *)
Theorem clear_is_idempotent :
  (forall self : App.AirCanvasProcessor,
      App.canvas (App.clear_canvas self) =
        np.zeros App.CAMERA_HEIGHT App.CAMERA_WIDTH /\
      App.clear_canvas (App.clear_canvas self) = App.clear_canvas self) /\
  (forall (self : App.AirCanvasProcessor) (tip tip' : option Point),
      App.canvas (App.gestures self [1; 1; 1; 1; 1] tip) =
        np.zeros App.CAMERA_HEIGHT App.CAMERA_WIDTH /\
      App.gestures (App.gestures self [1; 1; 1; 1; 1] tip) [1; 1; 1; 1; 1] tip' =
        App.gestures self [1; 1; 1; 1; 1] tip) /\
  (forall (st : Main.locals) (tip tip' : option Point),
      Main.canvas (Main.gestures st [1; 1; 1; 1; 1] tip) =
        np.zeros Main.CAMERA_HEIGHT Main.CAMERA_WIDTH /\
      Main.gestures (Main.gestures st [1; 1; 1; 1; 1] tip) [1; 1; 1; 1; 1] tip' =
        Main.gestures st [1; 1; 1; 1; 1] tip) /\
  (forall h w : Z,
      length (np.zeros h w) = Z.to_nat h /\
      Forall (fun row => length row = Z.to_nat w /\ Forall (eq (0, 0, 0)) row)
        (np.zeros h w)).
Proof.
  split; [|split; [|split]].
  - intros self. split; reflexivity.
  - intros self tip tip'. rewrite !App_gestures_palm. split; reflexivity.
  - intros st tip tip'. rewrite !Main_gestures_palm. split; reflexivity.
  - apply zeros_all_background.
Qed.

(** ** Palette selection *)

Lemma color_boxes_init (W hh : Z) :
  ColorPalette.color_boxes (ColorPalette.init W hh) =
    [ ColorPalette.Build_Box (0 * (W / 6)) (1 * (W / 6)) 0 hh (255, 0, 255) "Purple";
      ColorPalette.Build_Box (1 * (W / 6)) (2 * (W / 6)) 0 hh (255, 0, 0) "Blue";
      ColorPalette.Build_Box (2 * (W / 6)) (3 * (W / 6)) 0 hh (0, 255, 0) "Green";
      ColorPalette.Build_Box (3 * (W / 6)) (4 * (W / 6)) 0 hh (0, 0, 255) "Red";
      ColorPalette.Build_Box (4 * (W / 6)) (5 * (W / 6)) 0 hh (0, 255, 255) "Yellow";
      ColorPalette.Build_Box (5 * (W / 6)) (6 * (W / 6)) 0 hh (0, 0, 0) "Eraser" ].
Proof. reflexivity. Qed.

Lemma in_box_true (box : ColorPalette.Box) (x y : Z) :
  ColorPalette.in_box box x y = true ->
  ColorPalette.x1 box <= x <= ColorPalette.x2 box /\
  ColorPalette.y1 box <= y <= ColorPalette.y2 box.
Proof. unfold ColorPalette.in_box. intros H. repeat (apply andb_prop in H as [H ?]). lia. Qed.

Lemma in_box_false (box : ColorPalette.Box) (x y : Z) :
  ColorPalette.in_box box x y = false ->
  ~ (ColorPalette.x1 box <= x <= ColorPalette.x2 box /\
     ColorPalette.y1 box <= y <= ColorPalette.y2 box).
Proof.
  unfold ColorPalette.in_box. intros H Hin.
  repeat (apply andb_false_iff in H as [H | H]); lia.
Qed.

(** Walk down the six boxes, turning each boolean test into its meaning. *)
Ltac walk_boxes :=
  repeat match goal with
    | |- context [ColorPalette.in_box ?b ?x ?y] =>
        let E := fresh "E" in
        destruct (ColorPalette.in_box b x y) eqn:E;
        [apply in_box_true in E | apply in_box_false in E];
        cbn [ColorPalette.x1 ColorPalette.x2 ColorPalette.y1 ColorPalette.y2
             ColorPalette.color] in E
    end.

Lemma check_selection_init (W hh x y : Z) :
  ColorPalette.check_selection (ColorPalette.init W hh) x y =
    if hh <? y then None
    else ColorPalette.first_hit
           (ColorPalette.color_boxes (ColorPalette.init W hh)) x y.
Proof. reflexivity. Qed.

Lemma swatch_values :
  swatch 0 = Some (255, 0, 255) /\ swatch 1 = Some (255, 0, 0) /\
  swatch 2 = Some (0, 255, 0) /\ swatch 3 = Some (0, 0, 255) /\
  swatch 4 = Some (0, 255, 255) /\ swatch 5 = Some (0, 0, 0).
Proof. repeat split. Qed.

(** The answer inside the band: the first box whose span holds [x]. *)
Lemma first_hit_least (W hh x y i : Z) :
  0 <= y <= hh -> 0 <= i < 6 ->
  i * (W / 6) <= x <= (i + 1) * (W / 6) ->
  (forall j, 0 <= j < i -> ~ j * (W / 6) <= x <= (j + 1) * (W / 6)) ->
  ColorPalette.first_hit (ColorPalette.color_boxes (ColorPalette.init W hh)) x y
    = swatch i.
Proof.
  intros Hy Hi Hx Hleast. rewrite color_boxes_init.
  pose proof (Hleast 0) as L0. pose proof (Hleast 1) as L1.
  pose proof (Hleast 2) as L2. pose proof (Hleast 3) as L3.
  pose proof (Hleast 4) as L4.
  set (bw := W / 6) in *.
  assert (Hcases : i = 0 \/ i = 1 \/ i = 2 \/ i = 3 \/ i = 4 \/ i = 5) by lia.
  cbn [ColorPalette.first_hit ColorPalette.color].
  destruct Hcases as [-> | [-> | [-> | [-> | [-> | ->]]]]];
    walk_boxes; try reflexivity; exfalso; lia.
Qed.

Lemma first_hit_none (W hh x y : Z) :
  (forall i, 0 <= i < 6 -> ~ i * (W / 6) <= x <= (i + 1) * (W / 6)) ->
  ColorPalette.first_hit (ColorPalette.color_boxes (ColorPalette.init W hh)) x y
    = None.
Proof.
  intros Hout. rewrite color_boxes_init.
  pose proof (Hout 0) as L0. pose proof (Hout 1) as L1.
  pose proof (Hout 2) as L2. pose proof (Hout 3) as L3.
  pose proof (Hout 4) as L4. pose proof (Hout 5) as L5.
  set (bw := W / 6) in *.
  cbn [ColorPalette.first_hit ColorPalette.color].
  walk_boxes; try reflexivity; exfalso; lia.
Qed.

Lemma first_hit_some (W hh x y : Z) (c : BGR) :
  ColorPalette.first_hit (ColorPalette.color_boxes (ColorPalette.init W hh)) x y
    = Some c ->
  exists i, 0 <= i < 6 /\ i * (W / 6) <= x <= (i + 1) * (W / 6) /\
            0 <= y <= hh /\ swatch i = Some c.
Proof.
  rewrite color_boxes_init. set (bw := W / 6) in *.
  cbn [ColorPalette.first_hit ColorPalette.color].
  walk_boxes; intros [= <-];
    [exists 0 | exists 1 | exists 2 | exists 3 | exists 4 | exists 5];
    (split; [lia|]); (split; [lia|]); (split; [lia|reflexivity]).
Qed.

(** C6, as stated, fails when the band is every [y <= header_height]: the
    point (50, -1) is in that band and box 0 of the 1280-wide palette
    contains x = 50, yet nothing is selected, since each box starts at
    row 0. *)
Lemma selection_in_band_fails :
  ~ (forall W hh x y i : Z,
        y <= hh -> 0 <= i < 6 ->
        i * (W / 6) <= x <= (i + 1) * (W / 6) ->
        exists j c,
          0 <= j < 6 /\ j * (W / 6) <= x <= (j + 1) * (W / 6) /\
          swatch j = Some c /\
          ColorPalette.check_selection (ColorPalette.init W hh) x y = Some c).
Proof.
  intros H.
  destruct (H 1280 100 50 (-1) 0 ltac:(lia) ltac:(lia)
              ltac:(change (1280 / 6) with 213; lia))
    as (j & c & _ & _ & _ & Hsel).
  vm_compute in Hsel. discriminate Hsel.
Qed.

(** C6, amended.  With the palette built for a frame of width [W] and a
    header of height [hh]: a point below the header ([y > hh]) selects
    nothing, whatever its x; a point in the header band ([0 <= y <= hh])
    selects the
    swatch of the box that contains x, the boxes being the six closed spans
    [[i * (W / 6), (i + 1) * (W / 6)]], i = 0..5, of equal width [W / 6]
    and in swatch order (where two spans share x, the first of them), and
    nothing when no span contains x.  A point above the frame ([y < 0]) is
    in no box and selects nothing. *)
Theorem selection_by_box (W hh x y : Z) :
  (hh < y ->
   ColorPalette.check_selection (ColorPalette.init W hh) x y = None) /\
  (0 <= y <= hh ->
   (forall i : Z,
       0 <= i < 6 ->
       i * (W / 6) <= x <= (i + 1) * (W / 6) ->
       (forall j, 0 <= j < i -> ~ j * (W / 6) <= x <= (j + 1) * (W / 6)) ->
       ColorPalette.check_selection (ColorPalette.init W hh) x y = swatch i /\
       is_Some (swatch i)) /\
   (forall c : BGR,
       ColorPalette.check_selection (ColorPalette.init W hh) x y = Some c ->
       exists i, 0 <= i < 6 /\ i * (W / 6) <= x <= (i + 1) * (W / 6) /\
                 swatch i = Some c) /\
   ((forall i, 0 <= i < 6 -> ~ i * (W / 6) <= x <= (i + 1) * (W / 6)) ->
    ColorPalette.check_selection (ColorPalette.init W hh) x y = None)) /\
  (y < 0 ->
   ColorPalette.check_selection (ColorPalette.init W hh) x y = None).
Proof.
  rewrite check_selection_init. split; [|split].
  - intros Hy. apply Z.ltb_lt in Hy. rewrite Hy. reflexivity.
  - intros Hy.
    replace (hh <? y) with false by (symmetry; apply Z.ltb_ge; lia).
    split; [|split].
    + intros i Hi Hx Hleast. split; [apply first_hit_least; assumption|].
      assert (Hcases : i = 0 \/ i = 1 \/ i = 2 \/ i = 3 \/ i = 4 \/ i = 5) by lia.
      destruct Hcases as [-> | [-> | [-> | [-> | [-> | ->]]]]]; eexists; reflexivity.
    + intros c Hc. destruct (first_hit_some _ _ _ _ _ Hc) as (i & Hi & Hx & _ & Hsw).
      eauto.
    + apply first_hit_none.
  - intros Hy. destruct (hh <? y); [reflexivity|].
    destruct (ColorPalette.first_hit _ x y) as [c|] eqn:E; [|reflexivity].
    destruct (first_hit_some _ _ _ _ _ E) as (i & _ & _ & Hband & _). lia.
Qed.

Lemma selection_by_box_witness :
  ColorPalette.check_selection App.palette 300 81 = None /\
  ColorPalette.check_selection App.palette 300 40 = Some (0, 255, 0) /\
  (exists i, 0 <= i < 6 /\ i * (640 / 6) <= 300 <= (i + 1) * (640 / 6) /\
             swatch i = Some (0, 255, 0)) /\
  ColorPalette.check_selection Main.palette 1279 50 = None /\
  ColorPalette.check_selection Main.palette 50 (-1) = None.
Proof.
  split; [|split; [|split; [|split]]].
  - apply (proj1 (selection_by_box 640 80 300 81)). lia.
  - apply (proj1 (proj1 (proj1 (proj2 (selection_by_box 640 80 300 40))
                           ltac:(lia)) 2
                    ltac:(lia) ltac:(change (640 / 6) with 106; lia)
                    ltac:(intros j Hj; change (640 / 6) with 106; lia))).
  - apply (proj1 (proj2 (proj1 (proj2 (selection_by_box 640 80 300 40))
                           ltac:(lia))) (0, 255, 0)).
    reflexivity.
  - apply (proj2 (proj2 (proj1 (proj2 (selection_by_box 1280 100 1279 50))
                           ltac:(lia)))).
    intros i Hi. change (1280 / 6) with 213. lia.
  - apply (proj2 (proj2 (selection_by_box 1280 100 50 (-1)))). lia.
Defined.

(** C9.  Selection is a function of the palette and the point, and its
    answer is either nothing or the colour of one of the six swatches.  At
    an x shared by two adjacent boxes ([x = i * (W / 6)], 1 <= i <= 5, the
    boxes being at least one pixel wide) a point of the header band selects
    the lower-indexed swatch, i - 1.  A point with x beyond [6 * (W / 6)]
    selects nothing; when 6 does not divide a positive [W], such points
    exist inside the frame width. *)
Theorem selection_closed_and_first_match (W hh : Z) :
  (forall x y : Z,
      ColorPalette.check_selection (ColorPalette.init W hh) x y = None \/
      exists i, 0 <= i < 6 /\
        is_Some (swatch i) /\
        ColorPalette.check_selection (ColorPalette.init W hh) x y = swatch i) /\
  (forall x y i : Z,
      0 < W / 6 -> 1 <= i <= 5 -> x = i * (W / 6) -> 0 <= y <= hh ->
      (i - 1) * (W / 6) <= x <= i * (W / 6) /\
      i * (W / 6) <= x <= (i + 1) * (W / 6) /\
      ColorPalette.check_selection (ColorPalette.init W hh) x y = swatch (i - 1)) /\
  (forall x y : Z,
      6 * (W / 6) < x ->
      ColorPalette.check_selection (ColorPalette.init W hh) x y = None) /\
  (0 < W -> W mod 6 <> 0 -> 6 * (W / 6) < W).
Proof.
  split; [|split; [|split]].
  - intros x y. rewrite check_selection_init.
    destruct (hh <? y); [left; reflexivity|].
    destruct (ColorPalette.first_hit _ x y) as [c|] eqn:E; [right|left; reflexivity].
    destruct (first_hit_some _ _ _ _ _ E) as (i & Hi & _ & _ & Hsw).
    exists i. rewrite Hsw. repeat split; eauto; lia.
  - intros x y i Hbw Hi -> Hy. split; [lia|]. split; [lia|].
    rewrite check_selection_init.
    replace (hh <? y) with false by (symmetry; apply Z.ltb_ge; lia).
    apply first_hit_least; try lia. intros j Hj. nia.
  - intros x y Hx. rewrite check_selection_init.
    destruct (hh <? y); [reflexivity|].
    apply first_hit_none. intros i Hi. nia.
  - intros HW Hmod. pose proof (Z.div_mod W 6 ltac:(lia)).
    pose proof (Z.mod_pos_bound W 6 ltac:(lia)). lia.
Qed.

Lemma selection_closed_and_first_match_witness :
  ColorPalette.check_selection App.palette 106 10 = Some (255, 0, 255) /\
  ColorPalette.check_selection App.palette 637 10 = None /\
  6 * (640 / 6) < 640.
Proof.
  split; [|split].
  - apply (proj1 (proj2 (selection_closed_and_first_match 640 80)) 106 10 1);
      change (640 / 6) with 106; lia.
  - apply (proj1 (proj2 (proj2 (selection_closed_and_first_match 640 80))) 637 10).
    change (640 / 6) with 106; lia.
  - apply (proj2 (proj2 (proj2 (selection_closed_and_first_match 640 80))));
      [lia|discriminate].
Defined.

(** * Further properties of the code *)

(** ** hand_detector.py *)



Lemma fingers_up_Ok_bits (lm : list HandDetector.Landmark) (fv : list Z) :
  HandDetector.fingers_up lm = Ok fv ->
  length fv = 5%nat /\ Forall (fun b => b = 0 \/ b = 1) fv.
Proof.
  intros H. destruct lm as [|l0 lm'] eqn:E.
  - injection H as <-. split; [reflexivity|]. repeat constructor.
  - rewrite <- E in *. assert (Hne : lm <> []) by (rewrite E; discriminate).
    destruct (fingers_up_inv lm fv Hne H)
      as (l3 & l4 & l6 & l8 & l10 & l12 & l14 & l16 & l18 & l20 & H');
      destruct H' as (H3 & H4 & H6 & H8 & H10 & H12 & H14 & H16 & H18 & H20).
    rewrite (fingers_up_hand lm _ _ _ _ _ _ _ _ _ _
               H3 H4 H6 H8 H10 H12 H14 H16 H18 H20) in H.
    injection H as <-. split; [reflexivity|].
    repeat match goal with |- Forall _ _ => constructor end;
      unfold up;
      match goal with |- context [?a <? ?b] => destruct (a <? b) end; auto.
Qed.



Lemma getitem_int_cases {A : Type} (l : list A) (i : Z) :
  (- Z.of_nat (length l) <= i < Z.of_nat (length l) ->
   exists a, getitem_int l i = Ok a /\
             (0 <= i -> l !! Z.to_nat i = Some a)) /\
  (~ - Z.of_nat (length l) <= i < Z.of_nat (length l) ->
   getitem_int l i = Raise IndexError).
Proof.
  unfold getitem_int, getitem. split; intros H.
  - destruct (Z.leb_spec 0 i).
    + destruct (lookup_lt_is_Some_2 l (Z.to_nat i) ltac:(lia)) as [a Ha].
      rewrite Ha. eauto.
    + destruct (Z.leb_spec 0 (Z.of_nat (length l) + i)); [|lia].
      destruct (lookup_lt_is_Some_2 l (Z.to_nat (Z.of_nat (length l) + i))
                  ltac:(lia)) as [a Ha].
      rewrite Ha. exists a. split; [reflexivity|lia].
  - destruct (Z.leb_spec 0 i).
    + rewrite lookup_ge_None_2 by lia. reflexivity.
    + destruct (Z.leb_spec 0 (Z.of_nat (length l) + i)); [lia|reflexivity].
Qed.

(** X2.  [get_finger_tip]: without a hand it returns [None] whatever the
    finger id.  With a hand, a finger id from 0 to 4 gives the position of
    landmark [4 * (finger_id + 1)]; a negative id from -5 to -1 counts from
    the end of [TIP_IDS] and gives landmark [4 * (finger_id + 6)] (so -1 is
    the pinky tip); any other id raises [IndexError], as does a list too
    short to hold the landmark. *)
Theorem get_finger_tip_cases (lm : list HandDetector.Landmark) (finger_id : Z) :
  (lm = [] -> HandDetector.get_finger_tip lm finger_id = Ok None) /\
  (lm <> [] -> 5 <= finger_id \/ finger_id < -5 ->
   HandDetector.get_finger_tip lm finger_id = Raise IndexError) /\
  (lm <> [] -> 0 <= finger_id < 5 ->
   HandDetector.get_finger_tip lm finger_id =
     match lm !! Z.to_nat (4 * (finger_id + 1)) with
     | Some l => Ok (Some (HandDetector.cx l, HandDetector.cy l))
     | None => Raise IndexError
     end) /\
  (lm <> [] -> -5 <= finger_id < 0 ->
   HandDetector.get_finger_tip lm finger_id =
     match lm !! Z.to_nat (4 * (finger_id + 6)) with
     | Some l => Ok (Some (HandDetector.cx l, HandDetector.cy l))
     | None => Raise IndexError
     end).
Proof.
  split; [intros ->; reflexivity|].
  assert (Hshape : lm <> [] ->
            HandDetector.get_finger_tip lm finger_id =
              (tip_id ← getitem_int HandDetector.TIP_IDS finger_id;
               tip ← getitem lm tip_id;
               Ok (Some (HandDetector.cx tip, HandDetector.cy tip)))).
  { intros Hne. destruct lm; [congruence|reflexivity]. }
  split; [|split]; intros Hne Hid; rewrite (Hshape Hne).
  - rewrite (proj2 (getitem_int_cases HandDetector.TIP_IDS finger_id))
      by (cbn; lia).
    reflexivity.
  - assert (Hc : finger_id = 0 \/ finger_id = 1 \/ finger_id = 2 \/
                 finger_id = 3 \/ finger_id = 4) by lia.
    destruct Hc as [-> | [-> | [-> | [-> | ->]]]];
      match goal with
      | |- context [getitem_int HandDetector.TIP_IDS ?k] =>
          let v := eval vm_compute in (getitem_int HandDetector.TIP_IDS k) in
          change (getitem_int HandDetector.TIP_IDS k) with v
      end;
      match goal with
      | |- context [Z.to_nat ?k] =>
          let v := eval vm_compute in (Z.to_nat k) in
          change (Z.to_nat k) with v
      end;
      cbn [mbind result_bind]; unfold getitem;
      match goal with |- context [lm !! ?i] => destruct (lm !! i) end;
      reflexivity.
  - assert (Hc : finger_id = -1 \/ finger_id = -2 \/ finger_id = -3 \/
                 finger_id = -4 \/ finger_id = -5) by lia.
    destruct Hc as [-> | [-> | [-> | [-> | ->]]]];
      match goal with
      | |- context [getitem_int HandDetector.TIP_IDS ?k] =>
          let v := eval vm_compute in (getitem_int HandDetector.TIP_IDS k) in
          change (getitem_int HandDetector.TIP_IDS k) with v
      end;
      match goal with
      | |- context [Z.to_nat ?k] =>
          let v := eval vm_compute in (Z.to_nat k) in
          change (Z.to_nat k) with v
      end;
      cbn [mbind result_bind]; unfold getitem;
      match goal with |- context [lm !! ?i] => destruct (lm !! i) end;
      reflexivity.
Qed.

Lemma get_finger_tip_cases_witness :
  HandDetector.get_finger_tip [] 9 = Ok None /\
  HandDetector.get_finger_tip fist_hand 5 = Raise IndexError /\
  HandDetector.get_finger_tip (pointing_hand 7 3) 1 = Ok (Some (7, 3)) /\
  HandDetector.get_finger_tip (pointing_hand 7 3) (-1) = Ok (Some (7, 4)).
Proof.
  split; [|split; [|split]].
  - apply (proj1 (get_finger_tip_cases [] 9) eq_refl).
  - apply (proj1 (proj2 (get_finger_tip_cases fist_hand 5)));
      [discriminate|lia].
  - apply (proj1 (proj2 (proj2 (get_finger_tip_cases (pointing_hand 7 3) 1))));
      [discriminate|lia].
  - apply (proj2 (proj2 (proj2 (get_finger_tip_cases (pointing_hand 7 3) (-1)))));
      [discriminate|lia].
Defined.

(** X3.  When [count_fingers] returns, the count is between 0 and 5; it is
    5 exactly when [fingers_up] gives the open-palm vector and 0 exactly
    when it gives the all-down vector.  It raises exactly when
    [fingers_up] does. *)
Theorem count_fingers_range (lm : list HandDetector.Landmark) :
  (forall n, HandDetector.count_fingers lm = Ok n ->
     0 <= n <= 5 /\
     (n = 5 <-> HandDetector.fingers_up lm = Ok [1; 1; 1; 1; 1]) /\
     (n = 0 <-> HandDetector.fingers_up lm = Ok [0; 0; 0; 0; 0])) /\
  (HandDetector.count_fingers lm = Raise IndexError <->
   HandDetector.fingers_up lm = Raise IndexError).
Proof.
  unfold HandDetector.count_fingers.
  destruct (HandDetector.fingers_up lm) as [fv|[]] eqn:E; cbn; split;
    try (intros; discriminate); try tauto; try (split; discriminate).
  intros n [= <-].
  destruct (fingers_up_Ok_bits lm fv E) as [Hlen Hbits].
  destruct fv as [|a [|b [|c [|d [|e [|? ?]]]]]]; try discriminate Hlen.
  repeat match goal with
         | H : Forall _ (_ :: _) |- _ => apply Forall_cons in H as [? H]
         end.
  unfold HandDetector.sum. cbn [foldl].
  split; [lia|]. split; split; intros H'; try (injection H' as -> -> -> -> ->);
    try reflexivity; f_equal; repeat f_equal; lia.
Qed.

Lemma count_fingers_range_witness :
  0 <= 1 <= 5 /\ HandDetector.count_fingers (take 5 fist_hand) = Raise IndexError.
Proof.
  split.
  - apply (proj1 (count_fingers_range thumb_hand) 1 eq_refl).
  - apply (proj2 (proj2 (count_fingers_range (take 5 fist_hand)))). reflexivity.
Defined.

(** X4.  [find_distance]: when either id is at or beyond the length of the
    list it returns 0 and an empty point list; for two non-negative ids
    inside the list it returns the distance of the two landmarks and the
    six numbers [x1, y1, x2, y2, cx, cy], the centre being the floor of
    the half sums and lying between the two points on each axis.  It raises [IndexError] exactly when both ids are
    below the length and one of them is a negative index reaching before
    the start of the list, so never for non-negative ids. *)
Theorem find_distance_cases {number : Type} (zero : number)
    (hypot : Z -> Z -> number) (lm : list HandDetector.Landmark) (p1 p2 : Z) :
  (Z.of_nat (length lm) <= Z.max p1 p2 ->
   HandDetector.find_distance zero hypot lm p1 p2 = Ok (zero, [])) /\
  (0 <= p1 -> 0 <= p2 -> Z.max p1 p2 < Z.of_nat (length lm) ->
   exists a b mx my,
     lm !! Z.to_nat p1 = Some a /\ lm !! Z.to_nat p2 = Some b /\
     HandDetector.find_distance zero hypot lm p1 p2 =
       Ok (hypot (HandDetector.cx b - HandDetector.cx a)
                 (HandDetector.cy b - HandDetector.cy a),
           [HandDetector.cx a; HandDetector.cy a;
            HandDetector.cx b; HandDetector.cy b; mx; my]) /\
     Z.min (HandDetector.cx a) (HandDetector.cx b) <= mx
       <= Z.max (HandDetector.cx a) (HandDetector.cx b) /\
     Z.min (HandDetector.cy a) (HandDetector.cy b) <= my
       <= Z.max (HandDetector.cy a) (HandDetector.cy b) /\
     mx = (HandDetector.cx a + HandDetector.cx b) / 2 /\
     my = (HandDetector.cy a + HandDetector.cy b) / 2) /\
  (HandDetector.find_distance zero hypot lm p1 p2 = Raise IndexError <->
   Z.max p1 p2 < Z.of_nat (length lm) /\
   (p1 < - Z.of_nat (length lm) \/ p2 < - Z.of_nat (length lm))).
Proof.
  unfold HandDetector.find_distance.
  destruct (Z.ltb_spec (Z.of_nat (length lm)) (Z.max p1 p2 + 1)) as [Hg|Hg].
  - split; [reflexivity|]. split; [lia|]. split; [discriminate|lia].
  - split; [lia|]. split.
    + intros H1 H2 _.
      destruct (proj1 (getitem_int_cases lm p1) ltac:(lia)) as (a & Ea & Ha).
      destruct (proj1 (getitem_int_cases lm p2) ltac:(lia)) as (b & Eb & Hb).
      rewrite Ea, Eb. cbn. do 4 eexists.
      split; [auto|]. split; [auto|]. split; [reflexivity|].
      pose proof (Z.div_mod (HandDetector.cx a + HandDetector.cx b) 2 ltac:(lia)).
      pose proof (Z.mod_pos_bound (HandDetector.cx a + HandDetector.cx b) 2 ltac:(lia)).
      pose proof (Z.div_mod (HandDetector.cy a + HandDetector.cy b) 2 ltac:(lia)).
      pose proof (Z.mod_pos_bound (HandDetector.cy a + HandDetector.cy b) 2 ltac:(lia)).
      split; [lia|]. split; [lia|]. split; reflexivity.
    + destruct (decide (- Z.of_nat (length lm) <= p1)) as [L1|L1].
      * destruct (proj1 (getitem_int_cases lm p1) ltac:(lia)) as (a & Ea & _).
        rewrite Ea. cbn.
        destruct (decide (- Z.of_nat (length lm) <= p2)) as [L2|L2].
        -- destruct (proj1 (getitem_int_cases lm p2) ltac:(lia)) as (b & Eb & _).
           rewrite Eb. cbn. split; [discriminate|lia].
        -- rewrite (proj2 (getitem_int_cases lm p2)) by lia. cbn.
           split; [lia|reflexivity].
      * rewrite (proj2 (getitem_int_cases lm p1)) by lia. cbn.
        split; [lia|reflexivity].
Qed.

Lemma find_distance_cases_witness :
  HandDetector.find_distance 0 Z.add (pointing_hand 7 3) 3 21 = Ok (0, []) /\
  (exists mx my,
      HandDetector.find_distance 0 Z.add (pointing_hand 7 3) 8 12 =
        Ok (1, [7; 3; 7; 4; mx; my]) /\
      7 <= mx <= 7 /\ 3 <= my <= 4) /\
  HandDetector.find_distance 0 Z.add (pointing_hand 7 3) 2 (-22) =
    Raise IndexError.
Proof.
  split; [|split].
  - apply (proj1 (find_distance_cases 0 Z.add (pointing_hand 7 3) 3 21)).
    cbn. lia.
  - destruct (proj1 (proj2 (find_distance_cases 0 Z.add (pointing_hand 7 3) 8 12))
                ltac:(lia) ltac:(lia) ltac:(cbn; lia))
      as (a & b & mx & my & Ha & Hb & H & Hx & Hy & _).
    injection Ha as <-. injection Hb as <-.
    exists mx, my. split; [rewrite H; reflexivity|]. split; [exact Hx|exact Hy].
  - apply (proj2 (proj2 (find_distance_cases 0 Z.add (pointing_hand 7 3) 2 (-22)))).
    cbn. lia.
Defined.

Lemma long_hand_shows (lm : list HandDetector.Landmark) :
  (21 <= length lm)%nat -> exists fv tip, shows lm fv tip.
Proof.
  intros Hlen.
  assert (Hl : forall i, (i < 21)%nat -> is_Some (lm !! i))
    by (intros i Hi; apply lookup_lt_is_Some; lia).
  destruct (Hl 3%nat ltac:(lia)) as [l3 H3].
  destruct (Hl 4%nat ltac:(lia)) as [l4 H4].
  destruct (Hl 6%nat ltac:(lia)) as [l6 H6].
  destruct (Hl 8%nat ltac:(lia)) as [l8 H8].
  destruct (Hl 10%nat ltac:(lia)) as [l10 H10].
  destruct (Hl 12%nat ltac:(lia)) as [l12 H12].
  destruct (Hl 14%nat ltac:(lia)) as [l14 H14].
  destruct (Hl 16%nat ltac:(lia)) as [l16 H16].
  destruct (Hl 18%nat ltac:(lia)) as [l18 H18].
  destruct (Hl 20%nat ltac:(lia)) as [l20 H20].
  eexists. apply shows_of_fingers_up.
  - destruct lm; [cbn in Hlen; lia|discriminate].
  - apply (fingers_up_hand lm _ _ _ _ _ _ _ _ _ _
             H3 H4 H6 H8 H10 H12 H14 H16 H18 H20).
Qed.

Section PositionFacts.

Context {coord : Type}.
Variable to_pixel : coord -> Z -> result Z.
Variables h w : Z.


Lemma find_position_loop_Ok (hand : list (HandDetector.NormalizedLandmark coord)) :
  forall (n : nat) (acc lm : list HandDetector.Landmark),
    HandDetector.find_position_loop to_pixel hand n h w acc = Ok lm ->
    exists new, lm = acc ++ new /\ length new = length hand /\
      forall i e, new !! i = Some e ->
        HandDetector.id e = Z.of_nat (n + i) /\
        exists p, hand !! i = Some p /\
          to_pixel (HandDetector.x p) w = Ok (HandDetector.cx e) /\
          to_pixel (HandDetector.y p) h = Ok (HandDetector.cy e).
Proof.
  induction hand as [|p rest IH]; intros n acc lm H; cbn in H.
  - injection H as <-. exists []. rewrite app_nil_r.
    split; [reflexivity|]. split; [reflexivity|].
    intros i e He. discriminate He.
  - destruct (to_pixel (HandDetector.x p) w) as [a|] eqn:Ea; [|discriminate H].
    destruct (to_pixel (HandDetector.y p) h) as [b|] eqn:Eb; [|discriminate H].
    cbn in H. destruct (IH _ _ _ H) as (new & -> & Hlen & Hnew).
    exists (HandDetector.Build_Landmark (Z.of_nat n) a b :: new).
    split; [rewrite <- app_assoc; reflexivity|].
    split; [cbn; rewrite Hlen; reflexivity|].
    intros [|k] e He; cbn in He.
    + injection He as <-. cbn. split; [f_equal; lia|]. exists p. auto.
    + destruct (Hnew k e He) as (Hid & q & Hq & Hx & Hy).
      split; [rewrite Hid; f_equal; lia|]. exists q. auto.
Qed.



(** What a call of [find_position] goes through: no hand to read, a hand
    read through its loop, or an index before the first hand. *)
Lemma find_position_shape
    (results : option (option (list (list (HandDetector.NormalizedLandmark coord)))))
    (hand_no : Z) :
  HandDetector.find_position to_pixel results h w hand_no = Ok [] \/
  (exists hands hand, results = Some (Some hands) /\ hand ∈ hands /\
     (0 <= hand_no -> hands !! Z.to_nat hand_no = Some hand) /\
     HandDetector.find_position to_pixel results h w hand_no =
       HandDetector.find_position_loop to_pixel hand 0 h w []) \/
  (hand_no < 0 /\
   HandDetector.find_position to_pixel results h w hand_no = Raise IndexError).
Proof.
  unfold HandDetector.find_position.
  destruct results as [[[|first others]|]|]; try (left; reflexivity).
  set (hands := first :: others).
  destruct (Z.ltb_spec hand_no (Z.of_nat (length hands))) as [Hlt|Hge];
    [|left; reflexivity].
  destruct (decide (- Z.of_nat (length hands) <= hand_no)) as [Hlo|Hlo].
  - destruct (proj1 (getitem_int_cases hands hand_no) ltac:(lia))
      as (hand & E & Hl).
    right; left. exists hands, hand. rewrite E. cbn [mbind result_bind].
    split; [reflexivity|]. split; [|split; [exact Hl|reflexivity]].
    unfold getitem_int, getitem in E.
    destruct (0 <=? hand_no);
      [|destruct (0 <=? Z.of_nat (length hands) + hand_no); [|discriminate E]];
      match type of E with
      | context [hands !! ?i] =>
          destruct (hands !! i) eqn:El; [|discriminate E];
          injection E as <-; eapply list_elem_of_lookup_2; exact El
      end.
  - right; right. split; [lia|].
    rewrite (proj2 (getitem_int_cases hands hand_no)) by lia. reflexivity.
Qed.


(** X6.  When every detected hand has 21 landmarks, as MediaPipe gives
    them, the list [find_position] returns is empty or has 21 entries, and
    the three queries the shells then make on it do not fail:
    [fingers_up] answers a vector, [count_fingers] its sum, and
    [get_finger_tip(1)] a point, or [None] exactly when the list is
    empty. *)
Theorem detector_queries_total
    (results : option (option (list (list (HandDetector.NormalizedLandmark coord)))))
    (hand_no : Z) (lm : list HandDetector.Landmark) :
  (forall hands, results = Some (Some hands) ->
     Forall (fun hand => length hand = 21%nat) hands) ->
  HandDetector.find_position to_pixel results h w hand_no = Ok lm ->
  (length lm = 0 \/ length lm = 21)%nat /\
  exists fv tip,
    HandDetector.fingers_up lm = Ok fv /\
    HandDetector.count_fingers lm = Ok (HandDetector.sum fv) /\
    HandDetector.get_finger_tip lm 1 = Ok tip /\
    (tip = None <-> lm = []).
Proof.
  intros H21 H.
  assert (Hlen : (length lm = 0 \/ length lm = 21)%nat).
  { destruct (find_position_shape results hand_no)
      as [E | [(hands & hand & Hr & Hin & _ & E) | [_ E]]];
      rewrite E in H; try discriminate H.
    - injection H as <-. left; reflexivity.
    - destruct (find_position_loop_Ok hand 0 [] lm H) as (new & -> & Hl & _).
      right. cbn [app]. rewrite Hl.
      specialize (H21 hands Hr). rewrite Forall_forall in H21.
      apply H21. exact Hin. }
  split; [exact Hlen|].
  destruct Hlen as [H0 | Hl].
  - destruct lm; [|discriminate H0].
    exists [0; 0; 0; 0; 0], None. repeat split; reflexivity.
  - destruct (long_hand_shows lm ltac:(lia)) as (fv & tip & Hne & Hf & Ht).
    exists fv, (Some tip). split; [exact Hf|].
    split; [unfold HandDetector.count_fingers; rewrite Hf; reflexivity|].
    split; [exact Ht|]. split; [discriminate|congruence].
Qed.

End PositionFacts.


Lemma detector_queries_total_witness :
  exists fv tip,
    HandDetector.fingers_up (pointing_hand 7 3) = Ok fv /\
    HandDetector.count_fingers (pointing_hand 7 3) = Ok (HandDetector.sum fv) /\
    HandDetector.get_finger_tip (pointing_hand 7 3) 1 = Ok tip /\
    (tip = None <-> pointing_hand 7 3 = []).
Proof.
  refine (proj2 (detector_queries_total (fun c dim => Ok (c + dim)) 0 0
                   (Some (Some [map (fun i : nat =>
                                       HandDetector.Build_NormalizedLandmark Z 7
                                         (if (i =? 8)%nat then 3 else 4))
                                    (seq 0 21)]))
                   0 (pointing_hand 7 3) _ eq_refl)).
  intros hands [= <-]. repeat constructor.
Defined.

(** ** color_palette.py *)

(** X7.  The palette built for a width [W >= 0] has six boxes, box [i]
    running from [i * (W // 6)] to [(i + 1) * (W // 6)] over the rows 0 to
    [header_height]; each box starts where the one before it ends, all lie
    inside the frame width, and fewer than 6 columns at the right edge of
    the frame belong to no box. *)
Theorem palette_boxes_tile (W hh : Z) :
  0 <= W ->
  length (ColorPalette.color_boxes (ColorPalette.init W hh)) = 6%nat /\
  (forall (i : nat) box,
      ColorPalette.color_boxes (ColorPalette.init W hh) !! i = Some box ->
      ColorPalette.x1 box = Z.of_nat i * (W / 6) /\
      ColorPalette.x2 box - ColorPalette.x1 box = W / 6 /\
      ColorPalette.y1 box = 0 /\ ColorPalette.y2 box = hh /\
      0 <= ColorPalette.x1 box /\ ColorPalette.x2 box <= W /\
      swatch (Z.of_nat i) = Some (ColorPalette.color box) /\
      forall next,
        ColorPalette.color_boxes (ColorPalette.init W hh) !! S i = Some next ->
        ColorPalette.x1 next = ColorPalette.x2 box) /\
  W - 6 < 6 * (W / 6) <= W.
Proof.
  intros HW. rewrite color_boxes_init.
  pose proof (Z.div_mod W 6 ltac:(lia)) as Hdm.
  pose proof (Z.mod_pos_bound W 6 ltac:(lia)) as Hm.
  split; [reflexivity|]. split; [|lia].
  intros i box Hi.
  destruct i as [|[|[|[|[|[|i]]]]]]; cbn in Hi; try discriminate Hi;
    injection Hi as <-; cbn [ColorPalette.x1 ColorPalette.x2 ColorPalette.y1
                             ColorPalette.y2 ColorPalette.color];
    (repeat split; try lia; try reflexivity);
    intros next Hn; cbn in Hn; try discriminate Hn; injection Hn as <-; cbn; lia.
Qed.

Lemma palette_boxes_tile_witness :
  length (ColorPalette.color_boxes Main.palette) = 6%nat /\
  1280 - 6 < 6 * (1280 / 6) <= 1280.
Proof.
  split.
  - apply (proj1 (palette_boxes_tile 1280 100 ltac:(lia))).
  - apply (proj2 (proj2 (palette_boxes_tile 1280 100 ltac:(lia)))).
Defined.

(** X8.  For a frame at least 6 pixels wide, [check_selection] answers a
    colour exactly for the points with [0 <= x <= 6 * (W // 6)] and
    [0 <= y <= header_height], and the colour is that of swatch
    [max(0, (x - 1) // (W // 6))]: the answer does not depend on [y] inside
    the band, and the columns are served without a gap. *)
Theorem selection_closed_form (W hh x y : Z) :
  6 <= W ->
  (is_Some (ColorPalette.check_selection (ColorPalette.init W hh) x y) <->
   0 <= x <= 6 * (W / 6) /\ 0 <= y <= hh) /\
  (0 <= x <= 6 * (W / 6) -> 0 <= y <= hh ->
   ColorPalette.check_selection (ColorPalette.init W hh) x y =
     swatch (Z.max 0 ((x - 1) / (W / 6)))).
Proof.
  intros HW.
  assert (Hbw : 0 < W / 6) by (apply Z.div_str_pos; lia).
  assert (Hform : 0 <= x <= 6 * (W / 6) -> 0 <= y <= hh ->
            ColorPalette.check_selection (ColorPalette.init W hh) x y =
              swatch (Z.max 0 ((x - 1) / (W / 6))) /\
            0 <= Z.max 0 ((x - 1) / (W / 6)) < 6).
  { intros Hx Hy. rewrite check_selection_init.
    replace (hh <? y) with false by (symmetry; apply Z.ltb_ge; lia).
    set (bw := W / 6) in *.
    pose proof (Z.div_mod (x - 1) bw ltac:(lia)) as Hdm.
    pose proof (Z.mod_pos_bound (x - 1) bw ltac:(lia)) as Hm.
    set (q := (x - 1) / bw) in *.
    assert (Hq : -1 <= q < 6) by nia.
    split; [|lia].
    apply first_hit_least; fold bw; try lia; try nia. }
  split; [|intros Hx Hy; apply Hform; assumption].
  split.
  - intros [c Hc]. rewrite check_selection_init in Hc.
    destruct (hh <? y); [discriminate Hc|].
    destruct (first_hit_some _ _ _ _ _ Hc) as (i & Hi & Hx & Hy & _).
    split; [nia|lia].
  - intros [Hx Hy]. destruct (Hform Hx Hy) as [-> Hq].
    set (q := Z.max 0 ((x - 1) / (W / 6))) in *.
    assert (Hcases : q = 0 \/ q = 1 \/ q = 2 \/ q = 3 \/ q = 4 \/ q = 5) by lia.
    destruct Hcases as [-> | [-> | [-> | [-> | [-> | ->]]]]]; eexists; reflexivity.
Qed.

Lemma selection_closed_form_witness :
  is_Some (ColorPalette.check_selection App.palette 636 80) /\
  ColorPalette.check_selection App.palette 107 5 = Some (255, 0, 0).
Proof.
  split.
  - apply (proj1 (selection_closed_form 640 80 636 80 ltac:(lia))).
    change (640 / 6) with 106. lia.
  - apply (proj2 (selection_closed_form 640 80 107 5 ltac:(lia)));
      change (640 / 6) with 106; lia.
Defined.

(** X9.  [is_in_header] and [check_selection] disagree on two kinds of
    rows: on the row [y = header_height] a point over a box is selected
    although [is_in_header] answers false, and on rows above the frame
    ([y < 0]) [is_in_header] answers true although nothing can be selected.
    On every other row a selected point is in the header. *)
Theorem header_tests_disagree (W hh x y : Z) :
  6 <= W -> 0 <= hh ->
  (0 <= x <= 6 * (W / 6) ->
   is_Some (ColorPalette.check_selection (ColorPalette.init W hh) x hh) /\
   ColorPalette.is_in_header (ColorPalette.init W hh) hh = false) /\
  (y < 0 ->
   ColorPalette.is_in_header (ColorPalette.init W hh) y = true /\
   ColorPalette.check_selection (ColorPalette.init W hh) x y = None) /\
  (is_Some (ColorPalette.check_selection (ColorPalette.init W hh) x y) ->
   y <> hh ->
   ColorPalette.is_in_header (ColorPalette.init W hh) y = true).
Proof.
  intros HW Hh. unfold ColorPalette.is_in_header.
  cbn [ColorPalette.header_height ColorPalette.init].
  assert (Hbw : 0 < W / 6) by (apply Z.div_str_pos; lia).
  split; [|split].
  - intros Hx. split; [|apply Z.ltb_irrefl].
    rewrite check_selection_init, Z.ltb_irrefl.
    destruct (ColorPalette.first_hit _ x hh) as [c|] eqn:E; [eexists; reflexivity|].
    exfalso. revert E. rewrite color_boxes_init. set (bw := W / 6) in *.
    cbn [ColorPalette.first_hit ColorPalette.color].
    walk_boxes; try discriminate. lia.
  - intros Hy. split; [apply Z.ltb_lt; lia|].
    rewrite check_selection_init. destruct (hh <? y); [reflexivity|].
    destruct (ColorPalette.first_hit _ x y) as [c|] eqn:E; [|reflexivity].
    destruct (first_hit_some _ _ _ _ _ E) as (i & _ & _ & Hband & _). lia.
  - intros [c Hc] Hne. rewrite check_selection_init in Hc.
    destruct (Z.ltb_spec hh y); [discriminate Hc|].
    apply Z.ltb_lt. lia.
Qed.

Lemma header_tests_disagree_witness :
  (is_Some (ColorPalette.check_selection App.palette 300 80) /\
   ColorPalette.is_in_header App.palette 80 = false) /\
  (ColorPalette.is_in_header App.palette (-3) = true /\
   ColorPalette.check_selection App.palette 300 (-3) = None).
Proof.
  split.
  - apply (proj1 (header_tests_disagree 640 80 300 0 ltac:(lia) ltac:(lia))).
    change (640 / 6) with 106. lia.
  - apply (proj1 (proj2 (header_tests_disagree 640 80 300 (-3)
                           ltac:(lia) ltac:(lia)))). lia.
Defined.

(** ** Shape and colours of the canvas *)

Lemma shaped_zeros (h w : Z) : shaped h w (np.zeros h w).
Proof.
  unfold shaped, np.zeros. split; [apply length_replicate|].
  apply Forall_replicate. apply length_replicate.
Qed.

Lemma shaped_line (h w : Z) (img : Image) (pt1 pt2 : Point) (color : BGR)
    (thickness : Z) :
  shaped h w img -> shaped h w (cv2.line img pt1 pt2 color thickness).
Proof.
  unfold shaped, cv2.line. intros [Hlen Hrows]. split.
  - rewrite length_imap. exact Hlen.
  - apply Forall_lookup. intros r row' Hr. rewrite list_lookup_imap in Hr.
    destruct (img !! r) as [row|] eqn:E; [|discriminate Hr].
    injection Hr as <-. rewrite length_imap.
    rewrite Forall_lookup in Hrows. exact (Hrows _ _ E).
Qed.

Lemma painted_zeros (cols : list BGR) (h w : Z) :
  (0, 0, 0) ∈ cols -> painted_with cols (np.zeros h w).
Proof.
  intros H. unfold painted_with, np.zeros.
  apply Forall_replicate. apply Forall_replicate. exact H.
Qed.

Lemma painted_line (cols : list BGR) (img : Image) (pt1 pt2 : Point)
    (color : BGR) (thickness : Z) :
  painted_with cols img -> color ∈ cols ->
  painted_with cols (cv2.line img pt1 pt2 color thickness).
Proof.
  unfold painted_with, cv2.line. intros Himg Hc.
  apply Forall_lookup. intros r row' Hr. rewrite list_lookup_imap in Hr.
  destruct (img !! r) as [row|] eqn:E; [|discriminate Hr].
  injection Hr as <-.
  rewrite Forall_lookup in Himg. specialize (Himg _ _ E).
  apply Forall_lookup. intros c px' Hpx. rewrite list_lookup_imap in Hpx.
  destruct (row !! c) as [px|] eqn:Ec; [|discriminate Hpx].
  injection Hpx as <-.
  destruct (cv2.on_stroke _ _ _ _); [exact Hc|].
  rewrite Forall_lookup in Himg. exact (Himg _ _ Ec).
Qed.

Lemma painted_pixel (cols : list BGR) (img : Image) (r c : nat) (px : BGR) :
  painted_with cols img -> pixel img r c = Some px -> px ∈ cols.
Proof.
  unfold painted_with, pixel. intros Himg Hpx.
  destruct (img !! r) as [row|] eqn:E; [|discriminate Hpx]. cbn in Hpx.
  rewrite Forall_lookup in Himg. specialize (Himg _ _ E).
  rewrite Forall_lookup in Himg. exact (Himg _ _ Hpx).
Qed.

Lemma black_is_swatch : (0, 0, 0) ∈ swatch_colors.
Proof. unfold swatch_colors. cbn. repeat constructor. Qed.

Lemma swatch_in_colors (i : Z) (c : BGR) :
  0 <= i < 6 -> swatch i = Some c -> c ∈ swatch_colors.
Proof.
  intros Hi Hs.
  assert (Hcases : i = 0 \/ i = 1 \/ i = 2 \/ i = 3 \/ i = 4 \/ i = 5) by lia.
  destruct Hcases as [-> | [-> | [-> | [-> | [-> | ->]]]]];
    injection Hs as <-; unfold swatch_colors; cbn; repeat constructor.
Qed.

Lemma check_selection_swatch (W hh x y : Z) (c : BGR) :
  ColorPalette.check_selection (ColorPalette.init W hh) x y = Some c ->
  c ∈ swatch_colors.
Proof.
  rewrite check_selection_init. destruct (hh <? y); [discriminate|].
  intros H. destruct (first_hit_some _ _ _ _ _ H) as (i & Hi & _ & _ & Hs).
  eapply swatch_in_colors; eassumption.
Qed.

(** ** main.py: the loop with its keyboard *)

Ltac main_inv :=
  unfold Main_inv;
  cbn [Main.draw_color Main.brush_thickness Main.canvas];
  split_and!; try assumption.

Lemma Main_gestures_inv (st : Main.locals) (fv : list Z) (tip : option Point) :
  Main_inv st -> Main_inv (Main.gestures st fv tip).
Proof.
  intros (Ht & Hc & Hs & Hp). unfold Main.gestures.
  repeat case_decide.
  - destruct tip as [[x y]|]; [|main_inv].
    destruct (ColorPalette.check_selection Main.palette x y) as [sel|] eqn:E;
      main_inv.
    apply (check_selection_swatch _ _ _ _ _ E).
  - destruct tip as [[x y]|]; main_inv.
    + apply shaped_line. exact Hs.
    + apply painted_line; assumption.
  - main_inv.
    + apply shaped_zeros.
    + apply painted_zeros, black_is_swatch.
  - main_inv.
Qed.

Lemma Main_frame_inv (st st' : Main.locals) (lm : list HandDetector.Landmark) :
  Main_inv st -> Main.frame st lm = Ok st' -> Main_inv st'.
Proof.
  intros Hinv. unfold Main.frame.
  destruct (negb (length lm =? 0)%nat); [|intros [= <-]; exact Hinv].
  destruct (HandDetector.get_finger_tip lm 1) as [tip|]; [|discriminate].
  destruct (HandDetector.fingers_up lm) as [fv|]; [|discriminate].
  destruct (HandDetector.count_fingers lm) as [n|]; [|discriminate].
  cbn. intros [= <-]. apply Main_gestures_inv. exact Hinv.
Qed.

Lemma Main_keyboard_inv (st st' : Main.locals) (key : Z) :
  Main_inv st -> Main.keyboard st key = Some st' -> Main_inv st'.
Proof.
  intros (Ht & Hc & Hs & Hp). unfold Main.keyboard.
  repeat match goal with
         | |- context [key =? ?k] => destruct (key =? k)
         end;
    intros [= <-]; main_inv;
    first [ apply shaped_zeros
          | apply painted_zeros, black_is_swatch
          | unfold swatch_colors; cbn; repeat constructor ].
Qed.

Lemma Main_init_inv : Main_inv Main.init.
Proof.
  split; [reflexivity|]. split; [unfold swatch_colors; cbn; repeat constructor|].
  split; [apply shaped_zeros|apply painted_zeros, black_is_swatch].
Qed.

Lemma Main_session_inv (inputs : list (list HandDetector.Landmark * Z))
    (st st' : Main.locals) :
  Main_inv st -> Main.session st inputs = Ok st' -> Main_inv st'.
Proof.
  revert st. induction inputs as [|[lm key] rest IH]; intros st Hinv.
  - intros [= <-]. exact Hinv.
  - cbn [Main.session].
    destruct (Main.frame st lm) as [st1|] eqn:E; [|discriminate].
    cbn [mbind result_bind].
    pose proof (Main_frame_inv _ _ _ Hinv E) as Hinv1.
    destruct (Main.keyboard st1 (Z.land key 255)) as [st2|] eqn:Ek.
    + apply IH. eapply Main_keyboard_inv; eassumption.
    + intros [= <-]. exact Hinv1.
Qed.

(** X10.  Whatever frames and keys the desktop loop is given from start-up,
    when a run returns: the brush thickness is still 15 (also after the
    eraser swatch was picked), the drawing colour is one of the six swatch
    colours (so never the white of [COLORS]), the canvas still has 720 rows
    of 1280 pixels, and every canvas pixel has a swatch colour. *)
Theorem main_session_keeps (inputs : list (list HandDetector.Landmark * Z))
    (st' : Main.locals) :
  Main.session Main.init inputs = Ok st' ->
  Main.brush_thickness st' = 15 /\
  Main.draw_color st' ∈
    [(255, 0, 255); (255, 0, 0); (0, 255, 0); (0, 0, 255); (0, 255, 255);
     (0, 0, 0)] /\
  Main.draw_color st' <> (255, 255, 255) /\
  length (Main.canvas st') = 720%nat /\
  Forall (fun row => length row = 1280%nat) (Main.canvas st') /\
  (forall r c px, pixel (Main.canvas st') r c = Some px ->
     px ∈ [(255, 0, 255); (255, 0, 0); (0, 255, 0); (0, 0, 255);
           (0, 255, 255); (0, 0, 0)]).
Proof.
  intros Hrun.
  destruct (Main_session_inv inputs Main.init st' Main_init_inv Hrun)
    as (Ht & Hc & [Hlen Hrows] & Hp).
  split; [exact Ht|]. split; [exact Hc|]. split.
  - intros Hw. rewrite Hw in Hc. unfold swatch_colors in Hc. cbn in Hc.
    repeat match goal with
           | H : _ ∈ _ :: _ |- _ => apply elem_of_cons in H as [H | H];
                                    [discriminate H|]
           | H : _ ∈ [] |- _ => apply elem_of_nil in H; exact H
           end.
  - split; [exact Hlen|]. split; [exact Hrows|].
    intros r c px Hpx. exact (painted_pixel _ _ _ _ _ Hp Hpx).
Qed.

Lemma selecting_hand_shows (x y : Z) :
  shows (selecting_hand x y) [0; 1; 1; 0; 0] (x, y).
Proof.
  split; [discriminate|]. split; [|reflexivity].
  unfold selecting_hand. cbn. unfold getitem. cbn.
  rewrite !Z.ltb_irrefl.
  replace (y <? y + 1) with true by (symmetry; apply Z.ltb_lt; lia).
  reflexivity.
Qed.

Lemma palm_hand_shows : shows palm_hand [1; 1; 1; 1; 1] (100, 90).
Proof. split; [discriminate|]. split; reflexivity. Qed.

Lemma main_session_keeps_witness :
  Main.session Main.init [(selecting_hand 1200 50, -1)] =
    Ok {| Main.draw_color := (0, 0, 0); Main.brush_thickness := 15;
          Main.canvas := Main.canvas Main.init;
          Main.prev_x := 0; Main.prev_y := 0 |} /\
  Main.brush_thickness
    {| Main.draw_color := (0, 0, 0); Main.brush_thickness := 15;
       Main.canvas := Main.canvas Main.init;
       Main.prev_x := 0; Main.prev_y := 0 |} = 15.
Proof.
  assert (H : Main.session Main.init [(selecting_hand 1200 50, -1)] =
                Ok {| Main.draw_color := (0, 0, 0); Main.brush_thickness := 15;
                      Main.canvas := Main.canvas Main.init;
                      Main.prev_x := 0; Main.prev_y := 0 |}) by reflexivity.
  split; [exact H|].
  exact (proj1 (main_session_keeps _ _ H)).
Defined.

(** X11.  The ['c'] key clears the canvas without resetting the previous
    cursor, unlike the open-palm gesture: a Drawing frame at [p1] whose
    iteration ends with ['c'], followed by a Drawing frame at [p2], leaves
    on the fresh canvas the segment from [p1] to [p2].  And ['q'] ends the
    run after any frame: the inputs after it are not processed. *)
Theorem key_c_keeps_cursor (st : Main.locals)
    (lm1 lm2 : list HandDetector.Landmark) (x1 y1 x2 y2 : Z)
    (rest : list (list HandDetector.Landmark * Z)) :
  shows lm1 [0; 1; 0; 0; 0] (x1, y1) -> shows lm2 [0; 1; 0; 0; 0] (x2, y2) ->
  (x1, y1) <> (0, 0) ->
  Main.session st [(lm1, ord "c"); (lm2, -1)] =
    Ok {| Main.draw_color := Main.draw_color st;
          Main.brush_thickness := Main.brush_thickness st;
          Main.canvas :=
            cv2.line (np.zeros Main.CAMERA_HEIGHT Main.CAMERA_WIDTH)
              (x1, y1) (x2, y2) (Main.draw_color st) (Main.brush_thickness st);
          Main.prev_x := x2; Main.prev_y := y2 |} /\
  Main.session st ((lm1, ord "q") :: rest) = Main.frame st lm1 /\
  (forall lm, Main.session st ((lm, ord "q") :: rest) = Main.frame st lm).
Proof.
  intros Hs1 Hs2 Hne. split; [|split].
  - cbn [Main.session].
    rewrite (Main_frame_shows _ _ _ _ Hs1), Main_gestures_draw.
    cbn [mbind result_bind].
    change (Z.land (ord "c") 255) with 99. change (Z.land (-1) 255) with 255.
    unfold Main.keyboard at 1. change (ord "q") with 113. change (ord "c") with 99.
    cbn [Z.eqb Pos.eqb].
    rewrite (Main_next_stroke _ _ _ _ Hs2) by exact Hne.
    cbn [mbind result_bind]. reflexivity.
  - cbn [Main.session].
    rewrite (Main_frame_shows _ _ _ _ Hs1). cbn [mbind result_bind].
    reflexivity.
  - intros lm. cbn [Main.session].
    destruct (Main.frame st lm); reflexivity.
Qed.

Lemma key_c_keeps_cursor_witness :
  exists st',
    Main.session Main.init [(pointing_hand 100 100, 99); (pointing_hand 300 200, -1)]
      = Ok st' /\
    Main.canvas st' =
      cv2.line (np.zeros Main.CAMERA_HEIGHT Main.CAMERA_WIDTH) (100, 100) (300, 200)
        (Main.draw_color Main.init) (Main.brush_thickness Main.init).
Proof.
  eexists. split.
  - apply (proj1 (key_c_keeps_cursor Main.init _ _ 100 100 300 200 []
                    (pointing_hand_shows 100 100) (pointing_hand_shows 300 200)
                    ltac:(discriminate))).
  - reflexivity.
Defined.

(** The Drawing frames of a stroke once a previous cursor is set. *)
Lemma Main_path (lms : list (list HandDetector.Landmark)) (pts : list Point) :
  Forall2 (fun lm p => shows lm [0; 1; 0; 0; 0] p) lms pts ->
  Forall (fun p => p <> (0, 0)) pts ->
  forall st : Main.locals,
    (Main.prev_x st, Main.prev_y st) <> (0, 0) ->
    exists st', Main.loop st lms = Ok st' /\
      Main.canvas st' =
        draw_path (Main.canvas st) (Main.prev_x st, Main.prev_y st) pts
          (Main.draw_color st) (Main.brush_thickness st) /\
      (Main.prev_x st', Main.prev_y st') =
        default (Main.prev_x st, Main.prev_y st) (last pts) /\
      Main.draw_color st' = Main.draw_color st /\
      Main.brush_thickness st' = Main.brush_thickness st.
Proof.
  induction 1 as [|lm [x y] lms pts Hs _ IH]; intros Hpts st Hprev.
  - exists st. repeat split.
  - apply Forall_cons in Hpts as [Hp Hpts].
    cbn [Main.loop]. rewrite (Main_next_stroke _ _ _ _ Hs Hprev).
    cbn [mbind result_bind].
    match goal with
    | |- context [Main.loop ?s lms] =>
        destruct (IH Hpts s Hp) as (st' & Hrun & Hc & Hl & Hcol & Hth)
    end.
    exists st'. split; [exact Hrun|].
    cbn [Main.canvas Main.prev_x Main.prev_y Main.draw_color
         Main.brush_thickness] in *.
    split; [exact Hc|]. split; [|split; assumption].
    rewrite Hl. rewrite last_cons. destruct (last pts); reflexivity.
Qed.

Lemma App_path (lms : list (list HandDetector.Landmark)) (pts : list Point) :
  Forall2 (fun lm p => shows lm [0; 1; 0; 0; 0] p) lms pts ->
  Forall (fun p => p <> (0, 0)) pts ->
  forall self : App.AirCanvasProcessor,
    (App.prev_x self, App.prev_y self) <> (0, 0) ->
    exists self', App.stream self lms = Ok self' /\
      App.canvas self' =
        draw_path (App.canvas self) (App.prev_x self, App.prev_y self) pts
          (App.draw_color self) (App.brush_thickness self) /\
      (App.prev_x self', App.prev_y self') =
        default (App.prev_x self, App.prev_y self) (last pts) /\
      App.draw_color self' = App.draw_color self /\
      App.brush_thickness self' = App.brush_thickness self.
Proof.
  induction 1 as [|lm [x y] lms pts Hs _ IH]; intros Hpts self Hprev.
  - exists self. repeat split.
  - apply Forall_cons in Hpts as [Hp Hpts].
    cbn [App.stream]. rewrite (App_next_stroke _ _ _ _ Hs Hprev).
    cbn [mbind result_bind].
    match goal with
    | |- context [App.stream ?s lms] =>
        destruct (IH Hpts s Hp) as (self' & Hrun & Hc & Hl & Hcol & Hth)
    end.
    exists self'. split; [exact Hrun|].
    cbn [App.canvas App.prev_x App.prev_y App.draw_color App.brush_thickness
         App.set_prev App.set_canvas] in *.
    split; [exact Hc|]. split; [|split; assumption].
    rewrite Hl. rewrite last_cons. destruct (last pts); reflexivity.
Qed.

(** X12.  Stroke continuity: a run of Drawing frames, none at (0,0),
    starting from an unset previous cursor, leaves on the canvas the dot at
    the first cursor followed by one segment between each two consecutive
    cursors, in the colour and thickness of the start, and ends with the
    last cursor as previous cursor.  In both shells. *)
Theorem stroke_is_connected (lms : list (list HandDetector.Landmark))
    (p1 : Point) (pts : list Point) :
  Forall2 (fun lm p => shows lm [0; 1; 0; 0; 0] p) lms (p1 :: pts) ->
  Forall (fun p => p <> (0, 0)) (p1 :: pts) ->
  (forall st : Main.locals,
      Main.prev_x st = 0 -> Main.prev_y st = 0 ->
      exists st', Main.loop st lms = Ok st' /\
        Main.canvas st' =
          draw_path (Main.canvas st) p1 (p1 :: pts)
            (Main.draw_color st) (Main.brush_thickness st) /\
        (Main.prev_x st', Main.prev_y st') = default p1 (last pts)) /\
  (forall self : App.AirCanvasProcessor,
      App.prev_x self = 0 -> App.prev_y self = 0 ->
      exists self', App.stream self lms = Ok self' /\
        App.canvas self' =
          draw_path (App.canvas self) p1 (p1 :: pts)
            (App.draw_color self) (App.brush_thickness self) /\
        (App.prev_x self', App.prev_y self') = default p1 (last pts)).
Proof.
  intros Hshow Hpts.
  apply Forall2_cons_inv_r in Hshow as (lm1 & lms' & Hs1 & Hrest & ->).
  apply Forall_cons in Hpts as [Hp1 Hpts]. destruct p1 as [x1 y1].
  split.
  - intros st Hx Hy. cbn [Main.loop].
    rewrite (Main_fresh_stroke _ _ _ _ Hs1 Hx Hy). cbn [mbind result_bind].
    match goal with
    | |- context [Main.loop ?s lms'] =>
        destruct (Main_path lms' pts Hrest Hpts s Hp1)
          as (st' & Hrun & Hc & Hl & _)
    end.
    exists st'. split; [exact Hrun|]. split; [exact Hc|exact Hl].
  - intros self Hx Hy. cbn [App.stream].
    rewrite (App_fresh_stroke _ _ _ _ Hs1 Hx Hy). cbn [mbind result_bind].
    match goal with
    | |- context [App.stream ?s lms'] =>
        destruct (App_path lms' pts Hrest Hpts s Hp1)
          as (self' & Hrun & Hc & Hl & _)
    end.
    exists self'. split; [exact Hrun|]. split; [exact Hc|exact Hl].
Qed.

Lemma stroke_is_connected_witness :
  exists st',
    Main.loop Main.init
      [pointing_hand 100 100; pointing_hand 110 100; pointing_hand 120 100]
      = Ok st' /\
    Main.canvas st' =
      cv2.line
        (cv2.line
           (cv2.line (Main.canvas Main.init) (100, 100) (100, 100)
              (Main.draw_color Main.init) (Main.brush_thickness Main.init))
           (100, 100) (110, 100)
           (Main.draw_color Main.init) (Main.brush_thickness Main.init))
        (110, 100) (120, 100)
        (Main.draw_color Main.init) (Main.brush_thickness Main.init) /\
    (Main.prev_x st', Main.prev_y st') = (120, 100).
Proof.
  assert (Hshow : Forall2 (fun lm p => shows lm [0; 1; 0; 0; 0] p)
            [pointing_hand 100 100; pointing_hand 110 100; pointing_hand 120 100]
            [(100, 100); (110, 100); (120, 100)])
    by (repeat constructor; apply pointing_hand_shows).
  assert (Hpts : Forall (fun p : Point => p <> (0, 0))
            [(100, 100); (110, 100); (120, 100)])
    by (repeat constructor; discriminate).
  destruct (proj1 (stroke_is_connected _ _ _ Hshow Hpts) Main.init eq_refl eq_refl)
    as (st' & Hrun & Hc & Hl).
  exists st'. split; [exact Hrun|]. split; [exact Hc|exact Hl].
Defined.

(** ** app.py: the processor and its methods *)

Ltac app_inv :=
  unfold App_inv;
  cbn [App.draw_color App.brush_thickness App.canvas App.is_eraser_mode
       App.set_prev App.set_canvas App.set_tool];
  unfold App.MIN_BRUSH_SIZE, App.MAX_BRUSH_SIZE, App.ERASER_THICKNESS,
    App.BRUSH_THICKNESS in *;
  split_and!; try assumption; try lia.

Lemma App_gestures_inv (self : App.AirCanvasProcessor) (fv : list Z)
    (tip : option Point) :
  App_inv self -> App_inv (App.gestures self fv tip).
Proof.
  intros (He & Hc & Ht & Hs & Hp). unfold App.gestures.
  repeat case_decide.
  - destruct tip as [[x y]|]; [|app_inv].
    destruct (ColorPalette.check_selection App.palette x y) as [sel|] eqn:E;
      [|app_inv].
    pose proof (check_selection_swatch _ _ _ _ _ E) as Hsel.
    case_decide; app_inv; split; congruence.
  - destruct tip as [[x y]|]; [|app_inv].
    destruct ((App.prev_x self =? 0) && (App.prev_y self =? 0)); app_inv;
      first [apply shaped_line; exact Hs | apply painted_line; assumption].
  - app_inv; [apply shaped_zeros|apply painted_zeros, black_is_swatch].
  - app_inv; [tauto|apply black_is_swatch].
  - app_inv.
Qed.

Lemma App_recv_inv (self self' : App.AirCanvasProcessor)
    (lm : list HandDetector.Landmark) :
  App_inv self -> App.recv self lm = Ok self' -> App_inv self'.
Proof.
  intros Hinv. unfold App.recv.
  destruct (negb (length lm =? 0)%nat); [|intros [= <-]; exact Hinv].
  destruct (HandDetector.get_finger_tip lm 1) as [tip|]; [|discriminate].
  destruct (HandDetector.fingers_up lm) as [fv|]; [|discriminate].
  destruct (HandDetector.count_fingers lm) as [n|]; [|discriminate].
  cbn. intros [= <-]. apply App_gestures_inv. exact Hinv.
Qed.

Lemma dict_get_COLORS (color_name : string) (c : BGR) :
  dict_get App.COLORS color_name = Some c ->
  c ∈ swatch_colors /\ c <> App.ERASER_COLOR.
Proof.
  unfold App.COLORS. cbn [dict_get].
  repeat match goal with
         | |- context [String.eqb ?k color_name] =>
             destruct (String.eqb k color_name)
         end;
    intros [= <-]; (split; [unfold swatch_colors; cbn; repeat constructor
                           |discriminate]).
Qed.

Lemma App_call_inv (self self' : App.AirCanvasProcessor) (c : App.call) :
  App_inv self -> App.apply_call self c = Ok self' -> App_inv self'.
Proof.
  intros Hinv. destruct c as [lm|color_name|size|]; cbn [App.apply_call].
  - apply App_recv_inv. exact Hinv.
  - intros [= <-]. unfold App.set_color.
    destruct (dict_get App.COLORS color_name) as [c|] eqn:E; [|exact Hinv].
    destruct (dict_get_COLORS _ _ E) as [Hin Hnb].
    destruct Hinv as (He & Hc & Ht & Hs & Hp). app_inv. split; congruence.
  - intros [= <-]. destruct Hinv as (He & Hc & Ht & Hs & Hp).
    unfold App.set_brush_size. app_inv.
  - intros [= <-]. destruct Hinv as (He & Hc & Ht & Hs & Hp).
    unfold App.clear_canvas. app_inv;
      [apply shaped_zeros|apply painted_zeros, black_is_swatch].
Qed.

Lemma App_init_inv : App_inv App.init.
Proof.
  unfold App_inv. split_and!.
  - split; discriminate.
  - unfold swatch_colors; cbn; repeat constructor.
  - cbn. unfold App.MIN_BRUSH_SIZE, App.BRUSH_THICKNESS. lia.
  - cbn. unfold App.MAX_BRUSH_SIZE, App.BRUSH_THICKNESS. lia.
  - apply shaped_zeros.
  - apply painted_zeros, black_is_swatch.
Qed.

Lemma App_run_inv (calls : list App.call) (self self' : App.AirCanvasProcessor) :
  App_inv self -> App.run self calls = Ok self' -> App_inv self'.
Proof.
  revert self. induction calls as [|c rest IH]; intros self Hinv.
  - intros [= <-]. exact Hinv.
  - cbn [App.run].
    destruct (App.apply_call self c) as [self1|] eqn:E; [|discriminate].
    cbn [mbind result_bind]. apply IH. eapply App_call_inv; eassumption.
Qed.

(** X13.  Whatever methods are called on a new processor ([recv] on any
    frames, [set_color], [set_brush_size], [clear_canvas]), when the calls
    return: the eraser flag is set exactly when the drawing colour is
    black, the colour is one of the six swatch colours, the thickness lies
    between 5 and 50, the canvas has 480 rows of 640 pixels and every
    canvas pixel has a swatch colour. *)
Theorem app_run_keeps (calls : list App.call) (self' : App.AirCanvasProcessor) :
  App.run App.init calls = Ok self' ->
  (App.is_eraser_mode self' = true <-> App.draw_color self' = (0, 0, 0)) /\
  App.draw_color self' ∈
    [(255, 0, 255); (255, 0, 0); (0, 255, 0); (0, 0, 255); (0, 255, 255);
     (0, 0, 0)] /\
  5 <= App.brush_thickness self' <= 50 /\
  length (App.canvas self') = 480%nat /\
  Forall (fun row => length row = 640%nat) (App.canvas self') /\
  (forall r c px, pixel (App.canvas self') r c = Some px ->
     px ∈ [(255, 0, 255); (255, 0, 0); (0, 255, 0); (0, 0, 255);
           (0, 255, 255); (0, 0, 0)]).
Proof.
  intros Hrun.
  destruct (App_run_inv calls App.init self' App_init_inv Hrun)
    as (He & Hc & Ht & [Hlen Hrows] & Hp).
  split; [exact He|]. split; [exact Hc|]. split; [exact Ht|].
  split; [exact Hlen|]. split; [exact Hrows|].
  intros r c px Hpx. exact (painted_pixel _ _ _ _ _ Hp Hpx).
Qed.

Lemma app_run_keeps_witness :
  App.run App.init
    [App.SetBrushSize 200; App.Recv fist_hand; App.SetColor "white";
     App.SetBrushSize 1]
    = Ok {| App.draw_color := (0, 0, 0); App.brush_thickness := 5;
            App.is_eraser_mode := true; App.previous_color := (255, 0, 255);
            App.prev_x := 0; App.prev_y := 0;
            App.canvas := App.canvas App.init |} /\
  5 <= 5 <= 50.
Proof.
  assert (H : App.run App.init
                [App.SetBrushSize 200; App.Recv fist_hand; App.SetColor "white";
                 App.SetBrushSize 1]
              = Ok {| App.draw_color := (0, 0, 0); App.brush_thickness := 5;
                      App.is_eraser_mode := true;
                      App.previous_color := (255, 0, 255);
                      App.prev_x := 0; App.prev_y := 0;
                      App.canvas := App.canvas App.init |}) by reflexivity.
  split; [exact H|].
  exact (proj1 (proj2 (proj2 (app_run_keeps _ _ H)))).
Defined.

Lemma App_gestures_thickness (self : App.AirCanvasProcessor) (fv : list Z)
    (tip : option Point) :
  App.brush_thickness self = (if App.is_eraser_mode self then 50 else 15) ->
  App.brush_thickness (App.gestures self fv tip) =
    (if App.is_eraser_mode (App.gestures self fv tip) then 50 else 15).
Proof.
  intros Ht. unfold App.gestures. repeat case_decide; try exact Ht.
  - destruct tip as [[x y]|]; [|exact Ht].
    destruct (ColorPalette.check_selection App.palette x y); [|exact Ht].
    case_decide; reflexivity.
  - destruct tip as [[x y]|]; [|exact Ht].
    destruct ((App.prev_x self =? 0) && (App.prev_y self =? 0)); exact Ht.
  - reflexivity.
Qed.

(** X14.  As long as [set_brush_size] is not called, the thickness of the
    web shell is tied to the eraser flag: 50 while the flag is set, 15
    otherwise, after any run of [recv], [set_color] and [clear_canvas] on a
    new processor. *)
Theorem app_thickness_follows_eraser (calls : list App.call)
    (self' : App.AirCanvasProcessor) :
  Forall (fun c => forall size, c <> App.SetBrushSize size) calls ->
  App.run App.init calls = Ok self' ->
  App.brush_thickness self' = (if App.is_eraser_mode self' then 50 else 15).
Proof.
  intros Hcalls.
  assert (Hgen : forall self,
             App.brush_thickness self = (if App.is_eraser_mode self then 50 else 15) ->
             App.run self calls = Ok self' ->
             App.brush_thickness self' =
               (if App.is_eraser_mode self' then 50 else 15)).
  { induction Hcalls as [|c rest Hc _ IH]; intros self Ht.
    - intros [= <-]. exact Ht.
    - cbn [App.run].
      destruct (App.apply_call self c) as [self1|] eqn:E; [|discriminate].
      cbn [mbind result_bind]. apply IH.
      destruct c as [lm|color_name|size|]; cbn [App.apply_call] in E.
      + unfold App.recv in E.
        destruct (negb (length lm =? 0)%nat); [|injection E as <-; exact Ht].
        destruct (HandDetector.get_finger_tip lm 1) as [tip|]; [|discriminate E].
        destruct (HandDetector.fingers_up lm) as [fv|]; [|discriminate E].
        destruct (HandDetector.count_fingers lm) as [n|]; [|discriminate E].
        cbn in E. injection E as <-. apply App_gestures_thickness. exact Ht.
      + injection E as <-. unfold App.set_color.
        destruct (dict_get App.COLORS color_name); [reflexivity|exact Ht].
      + exfalso. exact (Hc size eq_refl).
      + injection E as <-. exact Ht. }
  apply Hgen. reflexivity.
Qed.

Lemma app_thickness_follows_eraser_witness :
  App.brush_thickness
    {| App.draw_color := (0, 0, 0); App.brush_thickness := 50;
       App.is_eraser_mode := true; App.previous_color := (255, 0, 255);
       App.prev_x := 0; App.prev_y := 0;
       App.canvas := App.canvas App.init |} = 50.
Proof.
  refine (app_thickness_follows_eraser
            [App.SetColor "blue"; App.Recv fist_hand; App.ClearCanvas] _ _ _).
  - repeat constructor; discriminate.
  - reflexivity.
Defined.

(** X15.  [set_brush_size] clamps: the thickness it stores is the size when
    that lies between 5 and 50, 5 below and 50 above; it is idempotent and
    leaves colour, eraser flag, cursor and canvas alone.  The size is not
    kept: a [recv] that selects a swatch, or sees a fist, puts the thickness
    back to 15 or 50. *)
Theorem set_brush_size_clamps (self : App.AirCanvasProcessor) (size : Z) :
  5 <= App.brush_thickness (App.set_brush_size self size) <= 50 /\
  (5 <= size <= 50 -> App.brush_thickness (App.set_brush_size self size) = size) /\
  (size < 5 -> App.brush_thickness (App.set_brush_size self size) = 5) /\
  (50 < size -> App.brush_thickness (App.set_brush_size self size) = 50) /\
  App.set_brush_size (App.set_brush_size self size) size =
    App.set_brush_size self size /\
  (App.draw_color (App.set_brush_size self size) = App.draw_color self /\
   App.is_eraser_mode (App.set_brush_size self size) = App.is_eraser_mode self /\
   App.prev_x (App.set_brush_size self size) = App.prev_x self /\
   App.prev_y (App.set_brush_size self size) = App.prev_y self /\
   App.canvas (App.set_brush_size self size) = App.canvas self) /\
  (forall lm, lm <> [] -> HandDetector.fingers_up lm = Ok [0; 0; 0; 0; 0] ->
     exists self', App.recv (App.set_brush_size self size) lm = Ok self' /\
                   App.brush_thickness self' = 50) /\
  (forall lm x y c,
     shows lm [0; 1; 1; 0; 0] (x, y) ->
     ColorPalette.check_selection App.palette x y = Some c ->
     exists self', App.recv (App.set_brush_size self size) lm = Ok self' /\
                   App.brush_thickness self' = (if decide (c = (0, 0, 0)) then 50 else 15)).
Proof.
  unfold App.set_brush_size, App.MIN_BRUSH_SIZE, App.MAX_BRUSH_SIZE.
  cbn [App.brush_thickness App.set_tool App.draw_color App.is_eraser_mode
       App.set_prev App.set_canvas App.canvas App.prev_x App.prev_y
       App.previous_color].
  split; [lia|]. split; [lia|]. split; [lia|]. split; [lia|].
  split; [f_equal; lia|]. split; [repeat split|]. split.
  - intros lm Hne Hf. destruct (shows_of_fingers_up lm _ Hne Hf) as [tip Hs].
    eexists. split;
      [rewrite (App_recv_shows _ _ _ _ Hs), App_gestures_fist; reflexivity|].
    reflexivity.
  - intros lm x y c Hs Hsel. eexists. split.
    + rewrite (App_recv_shows _ _ _ _ Hs). reflexivity.
    + unfold App.gestures. rewrite decide_True by reflexivity. rewrite Hsel.
      unfold App.ERASER_COLOR. repeat case_decide; try congruence; reflexivity.
Qed.

Lemma set_brush_size_clamps_witness :
  App.brush_thickness (App.set_brush_size App.init 30) = 30 /\
  App.brush_thickness (App.set_brush_size App.init 3) = 5 /\
  App.brush_thickness (App.set_brush_size App.init 80) = 50 /\
  (exists self', App.recv (App.set_brush_size App.init 30) fist_hand = Ok self' /\
                 App.brush_thickness self' = 50) /\
  (exists self',
      App.recv (App.set_brush_size App.init 30) (selecting_hand 300 40) = Ok self' /\
      App.brush_thickness self' = 15).
Proof.
  pose proof (set_brush_size_clamps App.init 30) as (_ & H1 & _ & _ & _ & _ & H6 & H7).
  split; [apply H1; lia|].
  split; [apply (proj1 (proj2 (proj2 (set_brush_size_clamps App.init 3)))); lia|].
  split; [apply (proj1 (proj2 (proj2 (proj2 (set_brush_size_clamps App.init 80))))); lia|].
  split.
  - apply (H6 fist_hand); [discriminate|reflexivity].
  - apply (H7 (selecting_hand 300 40) 300 40 (0, 255, 0) (selecting_hand_shows 300 40)).
    reflexivity.
Defined.

(** X16.  [set_color] with a name that is not a key of [COLORS] (for
    instance "white" or "eraser") changes nothing; with one of the five
    keys it stores that colour, leaves eraser mode and puts the thickness
    back to 15, and the stored colour is never black. *)
Theorem set_color_cases (self : App.AirCanvasProcessor) (color_name : string) :
  (color_name ∉ ["purple"; "blue"; "green"; "red"; "yellow"]%string ->
   App.set_color self color_name = self) /\
  (color_name ∈ ["purple"; "blue"; "green"; "red"; "yellow"]%string ->
   exists c, dict_get App.COLORS color_name = Some c /\
     c <> (0, 0, 0) /\
     App.set_color self color_name = App.set_tool self c false 15).
Proof.
  unfold App.set_color, App.COLORS. cbn [dict_get].
  split.
  - intros Hout.
    repeat match goal with
           | |- context [String.eqb ?k color_name] =>
               destruct (String.eqb_spec k color_name) as [<- | ?];
               [exfalso; apply Hout; repeat constructor|]
           end.
    reflexivity.
  - intros Hin.
    repeat match goal with
           | |- context [String.eqb ?k color_name] =>
               destruct (String.eqb_spec k color_name) as [<- | ?];
               [eexists; split; [reflexivity|split; [discriminate|reflexivity]]|]
           end.
    exfalso.
    repeat match goal with
           | H : _ ∈ _ :: _ |- _ => apply elem_of_cons in H as [H | H];
                                    [congruence|]
           end.
    apply elem_of_nil in Hin. exact Hin.
Qed.

Lemma set_color_cases_witness :
  App.set_color App.init "white" = App.init /\
  (exists c, dict_get App.COLORS "red" = Some c /\ c <> (0, 0, 0) /\
             App.set_color App.init "red" = App.set_tool App.init c false 15).
Proof.
  split.
  - apply (proj1 (set_color_cases App.init "white")).
    intros H.
    repeat match goal with
           | H : _ ∈ _ :: _ |- _ => apply elem_of_cons in H as [H | H];
                                    [discriminate H|]
           end.
    apply elem_of_nil in H. exact H.
  - apply (proj2 (set_color_cases App.init "red")). repeat constructor.
Defined.

(** ** Compositing the canvases the shells build *)

Lemma merge_painted (canvas frame : Image) (r c : nat) (pc pf : BGR) :
  painted_with swatch_colors canvas -> uint8_pixel pf ->
  pixel canvas r c = Some pc -> pixel frame r c = Some pf ->
  pixel (merge_canvas canvas frame) r c =
    Some (if decide (pc = (0, 0, 0)) then pf else pc).
Proof.
  intros Hp (Hb & Hg & Hr) Hc Hf.
  rewrite (merge_canvas_pixel _ _ _ _ _ _ Hc Hf).
  pose proof (painted_pixel _ _ _ _ _ Hp Hc) as Hin.
  destruct pf as [[fb fg] fr]. cbn [fst snd] in *.
  unfold swatch_colors in Hin. cbn in Hin.
  repeat match goal with
         | H : _ ∈ _ :: _ |- _ => apply elem_of_cons in H as [-> | H]
         | H : _ ∈ [] |- _ => apply elem_of_nil in H; destruct H
         end;
    rewrite ?decide_True by reflexivity; rewrite ?decide_False by discriminate;
    unfold cv2.and_pixel, cv2.or_pixel; cbn [fst snd];
    try (change (20 <? cv2.gray_of _) with true; cbn iota zeta; cbn [fst snd];
         rewrite !Z.land_0_r; reflexivity).
  change (20 <? cv2.gray_of (0, 0, 0)) with false. cbn iota zeta. cbn [fst snd].
  rewrite !land_255 by assumption. rewrite !Z.lor_0_r. reflexivity.
Qed.

Lemma swatch_luminance (pc : BGR) :
  pc ∈ swatch_colors ->
  (pc = (0, 0, 0) /\ cv2.gray_of pc = 0) \/ (pc <> (0, 0, 0) /\ 20 < cv2.gray_of pc).
Proof.
  unfold swatch_colors. cbn. intros Hin.
  repeat match goal with
         | H : _ ∈ _ :: _ |- _ => apply elem_of_cons in H as [-> | H]
         | H : _ ∈ [] |- _ => apply elem_of_nil in H; destruct H
         end;
    first [ left; split; reflexivity
          | right; split; [discriminate|vm_compute; reflexivity] ].
Qed.

(** C5.  Compositing the stroke canvas onto a camera frame: on every
    canvas the shells build (any run of the desktop loop with its keys, any
    run of calls on the processor of the web shell), for every pixel, with
    background decided by the luminance of the canvas pixel being at or
    below the threshold 20: where the canvas pixel is background the output
    is the camera pixel unchanged, and where it is not the output is the
    canvas pixel. *)
Theorem compositing_keys_on_luminance (frame : Image) (r c : nat) (pc pf : BGR) :
  uint8_pixel pf -> pixel frame r c = Some pf ->
  (forall inputs st',
      Main.session Main.init inputs = Ok st' ->
      pixel (Main.canvas st') r c = Some pc ->
      (cv2.gray_of pc <= 20 ->
       pixel (merge_canvas (Main.canvas st') frame) r c = Some pf) /\
      (20 < cv2.gray_of pc ->
       pixel (merge_canvas (Main.canvas st') frame) r c = Some pc)) /\
  (forall calls self',
      App.run App.init calls = Ok self' ->
      pixel (App.canvas self') r c = Some pc ->
      (cv2.gray_of pc <= 20 ->
       pixel (merge_canvas (App.canvas self') frame) r c = Some pf) /\
      (20 < cv2.gray_of pc ->
       pixel (merge_canvas (App.canvas self') frame) r c = Some pc)).
Proof.
  intros Hu Hf.
  assert (Hkey : forall canvas,
             painted_with swatch_colors canvas ->
             pixel canvas r c = Some pc ->
             (cv2.gray_of pc <= 20 ->
              pixel (merge_canvas canvas frame) r c = Some pf) /\
             (20 < cv2.gray_of pc ->
              pixel (merge_canvas canvas frame) r c = Some pc)).
  { intros canvas Hp Hc. rewrite (merge_painted _ _ _ _ _ _ Hp Hu Hc Hf).
    destruct (swatch_luminance pc (painted_pixel _ _ _ _ _ Hp Hc))
      as [[-> Hg] | [Hne Hg]].
    - rewrite decide_True by reflexivity. split; [reflexivity|rewrite Hg; lia].
    - rewrite decide_False by exact Hne. split; [lia|reflexivity]. }
  split.
  - intros inputs st' Hrun Hc.
    destruct (Main_session_inv inputs Main.init st' Main_init_inv Hrun)
      as (_ & _ & _ & Hp).
    apply Hkey; assumption.
  - intros calls self' Hrun Hc.
    destruct (App_run_inv calls App.init self' App_init_inv Hrun)
      as (_ & _ & _ & _ & Hp).
    apply Hkey; assumption.
Qed.

(** X17.  On every canvas the shells can build (any run of the desktop loop
    with its keys, any run of calls on the processor), compositing is a
    keyed overlay: the output pixel is the camera pixel where the canvas
    pixel is (0,0,0) and the canvas pixel everywhere else. *)
Theorem overlay_on_built_canvas (frame : Image) (r c : nat) (pc pf : BGR) :
  uint8_pixel pf -> pixel frame r c = Some pf ->
  (forall inputs st',
      Main.session Main.init inputs = Ok st' ->
      pixel (Main.canvas st') r c = Some pc ->
      pixel (merge_canvas (Main.canvas st') frame) r c =
        Some (if decide (pc = (0, 0, 0)) then pf else pc)) /\
  (forall calls self',
      App.run App.init calls = Ok self' ->
      pixel (App.canvas self') r c = Some pc ->
      pixel (merge_canvas (App.canvas self') frame) r c =
        Some (if decide (pc = (0, 0, 0)) then pf else pc)).
Proof.
  intros Hu Hf. split.
  - intros inputs st' Hrun Hc.
    destruct (Main_session_inv inputs Main.init st' Main_init_inv Hrun)
      as (_ & _ & _ & Hp).
    apply merge_painted; assumption.
  - intros calls self' Hrun Hc.
    destruct (App_run_inv calls App.init self' App_init_inv Hrun)
      as (_ & _ & _ & _ & Hp).
    apply merge_painted; assumption.
Qed.

Lemma Main_session_no_key (st : Main.locals) (lm : list HandDetector.Landmark)
    (st' : Main.locals) :
  Main.frame st lm = Ok st' -> Main.session st [(lm, -1)] = Ok st'.
Proof.
  intros H. cbn [Main.session]. rewrite H. cbn [mbind result_bind].
  change (Z.land (-1) 255) with 255. reflexivity.
Qed.

Lemma overlay_on_built_canvas_witness :
  exists st',
    Main.session Main.init [(pointing_hand 100 100, -1)] = Ok st' /\
    pixel (merge_canvas (Main.canvas st') (np.zeros 720 1280)) 100 100 =
      Some (255, 0, 255).
Proof.
  pose proof (Main_session_no_key _ _ _
                (Main_fresh_stroke Main.init _ _ _ (pointing_hand_shows 100 100)
                   eq_refl eq_refl)) as Hrun.
  eexists. split; [exact Hrun|].
  assert (Hu : uint8_pixel (0, 0, 0)) by (unfold uint8_pixel, is_uint8; cbn; lia).
  assert (Hf : pixel (np.zeros 720 1280) 100 100 = Some (0, 0, 0))
    by (apply pixel_zeros; lia).
  refine (proj1 (overlay_on_built_canvas (np.zeros 720 1280) 100 100
                   (255, 0, 255) (0, 0, 0) Hu Hf) _ _ Hrun _).
  cbn [Main.canvas].
  apply (dot_paints_cursor _ _ _ 100 100 (0, 0, 0)).
  apply pixel_zeros; unfold Main.CAMERA_HEIGHT, Main.CAMERA_WIDTH; lia.
Defined.

Lemma compositing_keys_on_luminance_witness :
  exists st',
    Main.session Main.init [(pointing_hand 100 100, -1)] = Ok st' /\
    pixel (merge_canvas (Main.canvas st') (np.zeros 720 1280)) 100 100 =
      Some (255, 0, 255) /\
    pixel (merge_canvas (Main.canvas st') (np.zeros 720 1280)) 400 900 =
      Some (0, 0, 0).
Proof.
  pose proof (Main_session_no_key _ _ _
                (Main_fresh_stroke Main.init _ _ _ (pointing_hand_shows 100 100)
                   eq_refl eq_refl)) as Hrun.
  eexists. split; [exact Hrun|].
  assert (Hu : uint8_pixel (0, 0, 0)) by (unfold uint8_pixel, is_uint8; cbn; lia).
  split.
  - refine (proj2 (proj1 (compositing_keys_on_luminance (np.zeros 720 1280)
                            100 100 (255, 0, 255) (0, 0, 0) Hu
                            ltac:(apply pixel_zeros; lia)) _ _ Hrun _) _).
    + cbn [Main.canvas]. apply (dot_paints_cursor _ _ _ 100 100 (0, 0, 0)).
      apply pixel_zeros; unfold Main.CAMERA_HEIGHT, Main.CAMERA_WIDTH; lia.
    + vm_compute. reflexivity.
  - refine (proj1 (proj1 (compositing_keys_on_luminance (np.zeros 720 1280)
                            400 900 (0, 0, 0) (0, 0, 0) Hu
                            ltac:(apply pixel_zeros; lia)) _ _ Hrun _) _).
    + cbn [Main.canvas Main.init]. rewrite pixel_line.
      rewrite pixel_zeros
        by (unfold Main.CAMERA_HEIGHT, Main.CAMERA_WIDTH; lia).
      reflexivity.
    + vm_compute. discriminate.
Defined.

(** ** Compositing a cleared canvas, and erasing *)

Lemma merge_row (w : nat) (row : list BGR) :
  length row = w -> Forall uint8_pixel row ->
  zip_with cv2.or_pixel
    (zip_with cv2.and_pixel row (replicate w (255, 255, 255)))
    (replicate w (0, 0, 0)) = row.
Proof.
  intros Hlen Hu.
  rewrite (zip_with_replicate_r_eq cv2.and_pixel w) by exact Hlen.
  rewrite (zip_with_replicate_r_eq cv2.or_pixel w)
    by (rewrite length_fmap; exact Hlen).
  rewrite <- list_fmap_compose. rewrite <- (list_fmap_id row) at 2.
  apply Forall_fmap_ext_1. eapply Forall_impl; [exact Hu|].
  intros [[b g] r] (Hb & Hg & Hr). cbn in *.
  unfold cv2.or_pixel, cv2.and_pixel. cbn [fst snd].
  rewrite !Z.lor_0_r, !land_255 by assumption. reflexivity.
Qed.

Lemma map_replicate {A B : Type} (f : A -> B) (n : nat) (a : A) :
  map f (replicate n a) = replicate n (f a).
Proof. induction n as [|n IH]; [reflexivity|]. cbn. rewrite IH. reflexivity. Qed.

(** X18.  Over a cleared canvas the camera frame passes through whole:
    compositing the all-zero canvas onto a frame of the same size with
    uint8 pixels gives back exactly that frame.  So it is for the frame
    that follows an open-palm gesture or a [clear_canvas]. *)
Theorem merge_cleared_canvas (h w : Z) (frame : Image) :
  shaped h w frame -> Forall (Forall uint8_pixel) frame ->
  merge_canvas (np.zeros h w) frame = frame.
Proof.
  intros [Hlen Hrows] Hu.
  unfold merge_canvas, cv2.bitwise_or, cv2.bitwise_and, cv2.cvtColor_GRAY2BGR,
    cv2.threshold_BINARY_INV, cv2.cvtColor_BGR2GRAY, np.zeros.
  rewrite !map_replicate.
  change (cv2.gray_of (0, 0, 0)) with 0.
  change (if 20 <? 0 then 0 else 255) with 255.
  rewrite (zip_with_replicate_r_eq (zip_with cv2.and_pixel) (Z.to_nat h))
    by exact Hlen.
  rewrite (zip_with_replicate_r_eq (zip_with cv2.or_pixel) (Z.to_nat h))
    by (rewrite length_fmap; exact Hlen).
  rewrite <- list_fmap_compose. rewrite <- (list_fmap_id frame) at 2.
  apply Forall_fmap_ext_1.
  rewrite Forall_forall in Hrows, Hu. apply Forall_forall. intros row Hin.
  cbn. apply merge_row; [apply Hrows|apply Hu]; exact Hin.
Qed.

Lemma merge_cleared_canvas_witness :
  merge_canvas (np.zeros 1 2) [[(10, 20, 30); (255, 0, 7)]] =
    [[(10, 20, 30); (255, 0, 7)]].
Proof.
  apply merge_cleared_canvas.
  - split; [reflexivity|]. repeat constructor.
  - repeat constructor; cbn; lia.
Defined.

(** X19.  Erasing in the web shell: after a fist frame, a Drawing frame
    whose cursor is on the canvas paints that pixel black with the eraser
    thickness, and in the composited output the camera pixel shows there
    again. *)
Theorem eraser_restores_camera (self : App.AirCanvasProcessor)
    (lmf lmd : list HandDetector.Landmark) (frame : Image) (r c : nat)
    (px pf : BGR) :
  lmf <> [] -> HandDetector.fingers_up lmf = Ok [0; 0; 0; 0; 0] ->
  shows lmd [0; 1; 0; 0; 0] (Z.of_nat c, Z.of_nat r) ->
  pixel (App.canvas self) r c = Some px ->
  pixel frame r c = Some pf -> uint8_pixel pf ->
  exists self',
    App.stream self [lmf; lmd] = Ok self' /\
    App.canvas self' =
      cv2.line (App.canvas self) (Z.of_nat c, Z.of_nat r) (Z.of_nat c, Z.of_nat r)
        (0, 0, 0) 50 /\
    pixel (App.canvas self') r c = Some (0, 0, 0) /\
    pixel (merge_canvas (App.canvas self') frame) r c = Some pf.
Proof.
  intros Hne Hfist Hdraw Hpx Hf (Hb & Hg & Hr).
  destruct (shows_of_fingers_up lmf _ Hne Hfist) as [tip Hs].
  eexists. split.
  - cbn [App.stream]. rewrite (App_recv_shows _ _ _ _ Hs), App_gestures_fist.
    cbn [mbind result_bind].
    rewrite (App_fresh_stroke
               (App.set_prev
                  (App.set_tool self App.ERASER_COLOR true App.ERASER_THICKNESS)
                  0 0) _ _ _ Hdraw eq_refl eq_refl).
    cbn [mbind result_bind]. reflexivity.
  - cbn [App.canvas App.set_prev App.set_canvas App.set_tool App.draw_color
         App.brush_thickness].
    split; [reflexivity|].
    pose proof (dot_paints_cursor (App.canvas self) App.ERASER_COLOR
                  App.ERASER_THICKNESS r c px Hpx) as Hdot.
    split; [exact Hdot|].
    rewrite (merge_canvas_pixel _ _ _ _ _ _ Hdot Hf).
    destruct pf as [[fb fg] fr]. cbn [fst snd] in *.
    unfold cv2.and_pixel, cv2.or_pixel, App.ERASER_COLOR. cbn.
    rewrite !Z.lor_0_r, !land_255 by assumption. reflexivity.
Qed.

Lemma eraser_restores_camera_witness :
  exists self',
    App.stream App.init [fist_hand; pointing_hand 100 100] = Ok self' /\
    pixel (App.canvas self') 100 100 = Some (0, 0, 0) /\
    pixel (merge_canvas (App.canvas self') (np.zeros 480 640)) 100 100 =
      Some (0, 0, 0).
Proof.
  assert (Hu : uint8_pixel (0, 0, 0)) by (unfold uint8_pixel, is_uint8; cbn; lia).
  destruct (eraser_restores_camera App.init fist_hand (pointing_hand 100 100)
              (np.zeros 480 640) 100 100 (0, 0, 0) (0, 0, 0)
              ltac:(discriminate) eq_refl (pointing_hand_shows 100 100)
              ltac:(apply pixel_zeros;
                    unfold App.CAMERA_HEIGHT, App.CAMERA_WIDTH; lia)
              ltac:(apply pixel_zeros; lia) Hu)
    as (self' & Hrun & _ & Hpx & Hm).
  exists self'. split; [exact Hrun|]. split; [exact Hpx|exact Hm].
Defined.
